(** * PreservingAlpha-CbPro: the indicator / rule evaluation core

    A shallow embedding of the price window ([src/alpha/coinframe.py]), the
    rule grammar ([src/alpha/condition.py], [src/alpha/outcome.py]), the
    extended float ([src/alpha/mocks/number.py]), the mock order book
    ([src/alpha/mocks/order_book.py]) and what these use of
    [src/alpha/base.py], [src/alpha/msg.py] and [src/alpha/order.py],
    followed by the properties of the specification stated over that
    embedding.

    Conventions.
    - Python [float] is IEEE binary64: Rocq's primitive [float].
    - Python [int] is [Z]; Python [str] is [string].
    - A Python [dict] keeps insertion order: an association list without
      duplicate keys ([Dict]).
    - A raised exception is a [Raise e] result; code that mutates [self]
      threads the object through a state-and-exception monad, and the state
      reached when an exception leaves the method is kept, as in Python.
    - An [__init__] is a method run on the object that
      [super().__init__] has filled with the fields passed and the
      defaults of the others; the configuration that [Alpha.__init__] reads
      is taken to be in place. *)

From Stdlib Require Import ZArith List String Ascii Bool Floats Lia.
From Stdlib Require Import DecimalString.
Import ListNotations.
Open Scope string_scope.
Open Scope list_scope.
Open Scope Z_scope.

Set Implicit Arguments.
Set Warnings "-inexact-float".

(** ** Exceptions and results *)

Inductive exn : Type :=
| ValueError
| TypeError
| KeyError
| IndexError
| AttributeError
| ZeroDivisionError
| OverflowError
| AssertionError
| BackTestCompletedError.

Inductive result (A : Type) : Type :=
| Ok (a : A)
| Raise (e : exn).
Arguments Ok {A} a.
Arguments Raise {A} e.

Definition rbind {A B : Type} (m : result A) (k : A -> result B) : result B :=
  match m with
  | Ok a => k a
  | Raise e => Raise e
  end.

Notation "'let?' x ':=' m 'in' k" := (rbind m (fun x => k))
  (at level 10, x pattern, m at level 100, k at level 200).

(** ** Python values that reach [float()] and [Float()] *)

Inductive value : Type :=
| VNone
| VBool (b : bool)
| VInt (z : Z)
| VFloat (x : float)
| VStr (s : string).

(** ** Numbers *)

Module Py.

(** The binary64 nearest (ties to even) to the rational [num / den], for
    [0 < den]: the quotient is taken with enough extra bits and a sticky
    bit, and rounded once.  This is Python's [int / int]. *)
Definition float_of_ratio (num den : Z) : float :=
  match num with
  | Z0 => PrimFloat.zero
  | _ =>
      let a := Z.abs num in
      let s := Z.max 0 (120 - Z.log2 a + Z.log2 den) in
      let q := (a * 2 ^ s) / den in
      let r := (a * 2 ^ s) mod den in
      let mant := 2 * q + (if r =? 0 then 0 else 1) in
      SF2Prim (binary_normalize prec emax
                 (if num <? 0 then - mant else mant) (- (s + 1)) false)
  end.

(** [a / b] on ints. *)
Definition int_truediv (a b : Z) : result float :=
  if b =? 0 then Raise ZeroDivisionError
  else if b <? 0 then Ok (float_of_ratio (- a) (- b))
  else Ok (float_of_ratio a b).

(** [x / y] on floats. *)
Definition float_truediv (x y : float) : result float :=
  if PrimFloat.eqb y 0 then Raise ZeroDivisionError else Ok (x / y)%float.

(** [float(z)] for an int. *)
Definition float_of_int (z : Z) : result float :=
  let x := float_of_ratio z 1 in
  if PrimFloat.is_infinity x then Raise OverflowError else Ok x.

(** [round(x, ndigits)] on a float, for [0 <= ndigits]: the decimal
    expansion of [x] is rounded half-to-even at [ndigits] places and the
    nearest binary64 of that decimal is returned; the sign of [x] is kept,
    and nan and the infinities are returned as they are. *)
Definition round (x : float) (ndigits : Z) : float :=
  match Prim2SF x with
  | S754_finite sg m e =>
      let p := 10 ^ ndigits in
      let num := Z.pos m * p in
      let k := if 0 <=? e then num * 2 ^ e
               else let den := 2 ^ (- e) in
                    let q := num / den in
                    let r := num mod den in
                    match Z.compare (2 * r) den with
                    | Lt => q
                    | Gt => q + 1
                    | Eq => if Z.even q then q else q + 1
                    end in
      let y := float_of_ratio k p in
      if sg then (- y)%float else y
  | _ => x
  end.

(** [bool(x)] on a float: every float but the two zeros is truthy. *)
Definition float_bool (x : float) : bool := negb (PrimFloat.eqb x 0).

(** [int(x)] on a float truncates towards zero. *)
Definition int_of_float (x : float) : result Z :=
  match Prim2SF x with
  | S754_zero _ => Ok 0
  | S754_finite sg m e =>
      let a := if 0 <=? e then Z.pos m * 2 ^ e else Z.pos m / 2 ^ (- e) in
      Ok (if sg then - a else a)
  | S754_infinity _ => Raise OverflowError
  | S754_nan => Raise ValueError
  end.

(** [str(z)] on an int. *)
Definition str_of_int (z : Z) : string := NilZero.string_of_int (Z.to_int z).

(** [bool(v)]. *)
Definition truthy (v : value) : bool :=
  match v with
  | VNone => false
  | VBool b => b
  | VInt z => negb (z =? 0)
  | VFloat x => float_bool x
  | VStr s => negb (String.eqb s "")
  end.

(** *** Strings *)

(** [s.endswith(suffix)]. *)
Definition endswith (s suffix : string) : bool :=
  let n := String.length s in
  let k := String.length suffix in
  (k <=? n)%nat && String.eqb (substring (n - k) k s) suffix.

(** [s[:-k]] for a positive literal [k]. *)
Definition drop_last (k : nat) (s : string) : string :=
  substring 0 (String.length s - k) s.

Fixpoint lstrip (c : ascii) (s : string) : string :=
  match s with
  | String a s' => if Ascii.eqb a c then lstrip c s' else s
  | EmptyString => EmptyString
  end.

Fixpoint rev_string (s acc : string) : string :=
  match s with
  | String a s' => rev_string s' (String a acc)
  | EmptyString => acc
  end.

(** [s.strip(c)] for a one-character [c]. *)
Definition strip (c : ascii) (s : string) : string :=
  rev_string (lstrip c (rev_string (lstrip c s) "")) "".

(** *** Sequences *)

(** [min(xs)] and [max(xs)] over ints; [ValueError] on an empty argument. *)
Definition min (xs : list Z) : result Z :=
  match xs with
  | [] => Raise ValueError
  | x :: xs' => Ok (fold_left Z.min xs' x)
  end.

Definition max (xs : list Z) : result Z :=
  match xs with
  | [] => Raise ValueError
  | x :: xs' => Ok (fold_left Z.max xs' x)
  end.

(** [xs[i]] for [0 <= i]. *)
Definition getitem {A : Type} (xs : list A) (i : nat) : result A :=
  match nth_error xs i with
  | Some a => Ok a
  | None => Raise IndexError
  end.

(** [xs[-1]]. *)
Definition getlast {A : Type} (xs : list A) : result A :=
  match rev xs with
  | a :: _ => Ok a
  | [] => Raise IndexError
  end.

(** *** Calls *)

(** A call that passes the keywords [passed] to a function whose
    parameters are [declared] and that takes no [**kwargs]: a keyword that
    is not declared is a [TypeError], raised before the body runs. *)
Definition keywords (declared passed : list string) : result unit :=
  if forallb (fun k => existsb (String.eqb k) declared) passed
  then Ok tt
  else Raise TypeError.

End Py.

(** ** Insertion-ordered dictionaries *)

Class Key (K : Type) : Type := {
  key_eqb : K -> K -> bool;
  key_eqb_spec : forall a b, reflect (a = b) (key_eqb a b)
}.

#[export] Instance Z_key : Key Z :=
  {| key_eqb := Z.eqb; key_eqb_spec := Z.eqb_spec |}.

#[export] Instance string_key : Key string :=
  {| key_eqb := String.eqb; key_eqb_spec := String.eqb_spec |}.

Module Dict.
Section Dict.
Context {K V : Type} `{Key K}.

Definition dict : Type := list (K * V).

(** [d.get(k)]. *)
Fixpoint get (k : K) (d : dict) : option V :=
  match d with
  | [] => None
  | (k', v) :: d' => if key_eqb k' k then Some v else get k d'
  end.

(** [del d[k]] when [k] is a key; the other entries keep their order. *)
Fixpoint remove (k : K) (d : dict) : dict :=
  match d with
  | [] => []
  | (k', v) :: d' => if key_eqb k' k then d' else (k', v) :: remove k d'
  end.

(** [d[k]]. *)
Definition getitem (k : K) (d : dict) : result V :=
  match get k d with
  | Some v => Ok v
  | None => Raise KeyError
  end.

(** [d.pop(k)]: the value and the dictionary left. *)
Definition pop (k : K) (d : dict) : result (V * dict) :=
  match get k d with
  | Some v => Ok (v, remove k d)
  | None => Raise KeyError
  end.

(** [d[k] = v]: an existing key keeps its position, a new key goes last. *)
Fixpoint setitem (k : K) (v : V) (d : dict) : dict :=
  match d with
  | [] => [(k, v)]
  | (k', v') :: d' =>
      if key_eqb k' k then (k, v) :: d' else (k', v') :: setitem k v d'
  end.

Definition keys (d : dict) : list K := map fst d.

(** No key occurs twice: the invariant of a dictionary. *)
Fixpoint unique (d : dict) : bool :=
  match d with
  | [] => true
  | (k, _) :: d' => negb (existsb (key_eqb k) (map fst d')) && unique d'
  end.
Definition values (d : dict) : list V := map snd d.

(** [bool(d)]. *)
Definition nonempty (d : dict) : bool :=
  match d with
  | [] => false
  | _ :: _ => true
  end.

End Dict.
Arguments dict : clear implicits.
End Dict.

(** ** [src/alpha/mocks/number.py]

    The one class [Float] of the repository; [condition.py] and
    [order_book.py] import it under the module name [src.alpha.number]. *)

Module Number.
Section Number.

(** Python's [float(s)] on a string is a parameter of the development:
    [None] stands for [ValueError]. *)
Variable float_of_str : string -> option float.

(** [float(v)], which is also [float.__new__(cls, v)]. *)
Definition float_ (v : value) : result float :=
  match v with
  | VNone => Raise TypeError
  | VBool b => Ok (if b then 1 else 0)%float
  | VInt z => Py.float_of_int z
  | VFloat x => Ok x
  | VStr s => match float_of_str s with
              | Some x => Ok x
              | None => Raise ValueError
              end
  end.

(** [str(val).endswith('*')]: the [str] of [None], of a bool, of an int and
    of a float never ends in a star. *)
Definition str_endswith_star (val : value) : bool :=
  match val with
  | VStr s => Py.endswith s "*"
  | _ => false
  end.

(** [val[:-1]]. *)
Definition val_drop_last (val : value) : result value :=
  match val with
  | VStr s => Ok (VStr (Py.drop_last 1 s))
  | _ => Raise TypeError
  end.

(** [Float.__init__(self, val)].  [self] is a [float] instance, whose value
    was fixed by [float.__new__] before [__init__] runs.  The body rebinds
    the local name [val] twice and passes it to [float.__init__], which is
    [object.__init__] called on the temporary [val or float()]: it does not
    touch [self].  The method returns [self] as it received it (the
    attribute [act], always [float()], is left out). *)
Definition __init__ (self : float) (val : value) : result float :=
  let? val1 :=
    (if str_endswith_star val
     then let? v := val_drop_last val in
          let? x := float_ v in
          Ok (VFloat (x * 60)%float)
     else Ok val) in
  let? val2 :=
    (if Py.truthy val1
     then let? x := float_ val1 in Ok (VFloat (Py.round x 3))
     else Ok val1) in
  let _ := (if Py.truthy val2 then val2 else VFloat 0) in
  Ok self.

(** [Float(val)], and [Float()] for [None]: [float.__new__] then
    [__init__] with the same argument. *)
Definition Float (val : option value) : result float :=
  match val with
  | None => __init__ 0%float VNone
  | Some v => let? self := float_ v in __init__ self v
  end.

(** The arithmetic operators of [Float]. *)
Definition __add__ (self other : float) : result float :=
  Float (Some (VFloat (self + other)%float)).

Definition __sub__ (self other : float) : result float :=
  Float (Some (VFloat (self - other)%float)).

Definition __mul__ (self other : float) : result float :=
  Float (Some (VFloat (self * other)%float)).

Definition __truediv__ (self other : float) : result float :=
  let? q := Py.float_truediv self other in
  Float (Some (VFloat q)).

End Number.
End Number.

(** ** The part of pandas that [coinframe.py] uses

    A frame is an index of timestamps and named columns of binary64 values,
    each as long as the index; a missing value is nan, as in a pandas float
    column.  A column taken out of a frame ([df.price], [df[col]]) is its
    list of values: every frame handled here shares the index of the frame
    it was computed from, so pandas' alignment on the index is positional. *)

Module Pandas.

Definition row : Type := Dict.dict string float.

Record DataFrame : Type := {
  index : list Z;
  data : Dict.dict string (list float)
}.

(** [df.columns] as a list. *)
Definition columns (df : DataFrame) : list string := Dict.keys (data df).

Definition nth_value (xs : list float) (i : nat) : float := nth i xs nan.

(** [df.to_dict(orient='index')] of a frame whose index repeats no label,
    as the frames [from_dict] builds from a dictionary are (pandas refuses
    an index that repeats one). *)
Definition to_dict_index (df : DataFrame) : Dict.dict Z row :=
  map (fun p : nat * Z =>
         (snd p, map (fun c : string * list float => (fst c, nth_value (snd c) (fst p)))
                     (data df)))
      (combine (seq 0 (List.length (index df))) (index df)).

Fixpoint union_keys (seen : list string) (ks : list string) : list string :=
  match ks with
  | [] => seen
  | k :: ks' =>
      if existsb (String.eqb k) seen then union_keys seen ks'
      else union_keys (seen ++ [k]) ks'
  end.

(** [pd.DataFrame().from_dict(data=src, orient='index')]: one row per entry
    of [src] in its order, one column per key of the rows in order of first
    appearance. *)
Definition from_dict_index (src : Dict.dict Z row) : DataFrame :=
  let names := union_keys [] (flat_map (fun r : row => Dict.keys r) (Dict.values src)) in
  {| index := Dict.keys src;
     data := map (fun c => (c, map (fun r : row =>
                                      match Dict.get c r with
                                      | Some x => x
                                      | None => nan
                                      end) (Dict.values src))) names |}.

(** *** Column arithmetic *)

Fixpoint map2 (f : float -> float -> float) (xs ys : list float) : list float :=
  match xs, ys with
  | x :: xs', y :: ys' => f x y :: map2 f xs' ys'
  | _, _ => []
  end.

(** [s.shift(1)]. *)
Definition shift1 (xs : list float) : list float :=
  match xs with
  | [] => []
  | _ :: _ => nan :: removelast xs
  end.

(** *** Windows *)

Definition has_nan (w : list float) : bool := existsb PrimFloat.is_nan w.

(** The [n] values that end at position [i], when there are that many. *)
Definition window (n i : nat) (xs : list float) : option (list float) :=
  if (i + 1 <? n)%nat then None else Some (firstn n (skipn (i + 1 - n) xs)).

(** [rolling(n).agg()] on one column, for [0 <= n]: nan until [n]
    observations are in the window, and nan for a window holding a nan or
    for [n = 0]. *)
Definition rolling_col (agg : list float -> float) (n : nat) (xs : list float)
  : list float :=
  map (fun i => match window n i xs with
                | Some w => if (n =? 0)%nat || has_nan w then nan else agg w
                | None => nan
                end)
      (seq 0 (List.length xs)).

Definition fsum (w : list float) : float := fold_left PrimFloat.add w 0%float.

(** The arithmetic mean of a window: its sum, taken oldest first, over its
    length. *)
Definition mean (w : list float) : float :=
  (fsum w / Py.float_of_ratio (Z.of_nat (List.length w)) 1)%float.

Definition fmax (a b : float) : float := if PrimFloat.ltb a b then b else a.
Definition fmin (a b : float) : float := if PrimFloat.ltb b a then b else a.

Definition wmax (w : list float) : float :=
  match w with
  | [] => nan
  | x :: w' => fold_left fmax w' x
  end.

Definition wmin (w : list float) : float :=
  match w with
  | [] => nan
  | x :: w' => fold_left fmin w' x
  end.

(** [cummax()] / [cummin()] on one column: the running extremum of the
    values that are not nan, and nan where the value is nan. *)
Fixpoint cum (op : float -> float -> float) (acc : option float)
  (xs : list float) : list float :=
  match xs with
  | [] => []
  | x :: xs' =>
      if PrimFloat.is_nan x then nan :: cum op acc xs'
      else let a := match acc with
                    | None => x
                    | Some a => op a x
                    end in
           a :: cum op (Some a) xs'
  end.

Definition map_columns (f : list float -> list float) (df : DataFrame) : DataFrame :=
  {| index := index df;
     data := map (fun c : string * list float => (fst c, f (snd c))) (data df) |}.

(** [df.rolling(n)]: a negative window is refused. *)
Definition rolling (agg : list float -> float) (n : Z) (df : DataFrame)
  : result DataFrame :=
  if n <? 0 then Raise ValueError
  else Ok (map_columns (rolling_col agg (Z.to_nat n)) df).

Definition cummax (df : DataFrame) : DataFrame := map_columns (cum fmax None) df.
Definition cummin (df : DataFrame) : DataFrame := map_columns (cum fmin None) df.

(** *** Columns by name *)

(** [df.rename(columns={old: new})]. *)
Definition rename (old new : string) (df : DataFrame) : DataFrame :=
  {| index := index df;
     data := map (fun c : string * list float =>
                    (if String.eqb (fst c) old then new else fst c, snd c))
                 (data df) |}.

(** [pd.concat([a, b], axis=1)] for two frames on one index. *)
Definition concat1 (a b : DataFrame) : DataFrame :=
  {| index := index a; data := data a ++ data b |}.

(** [df.name]: a column read as an attribute. *)
Definition getattr (name : string) (df : DataFrame) : result (list float) :=
  match Dict.get name (data df) with
  | Some xs => Ok xs
  | None => Raise AttributeError
  end.

(** [df[name]]. *)
Definition getitem (name : string) (df : DataFrame) : result (list float) :=
  Dict.getitem name (data df).

(** [df[name] = xs]. *)
Definition setitem (name : string) (xs : list float) (df : DataFrame) : DataFrame :=
  {| index := index df; data := Dict.setitem name xs (data df) |}.

(** [df.drop(columns=[name], inplace=True)]. *)
Definition drop (name : string) (df : DataFrame) : result DataFrame :=
  let? p := Dict.pop name (data df) in
  Ok {| index := index df; data := snd p |}.

(** [df.tail(1).to_dict(orient='records')]: no record for a frame without
    rows, else the last row. *)
Definition tail1_records (df : DataFrame) : list row :=
  match index df with
  | [] => []
  | _ :: _ =>
      [map (fun c : string * list float =>
              (fst c, nth_value (snd c) (List.length (index df) - 1))) (data df)]
  end.

(** [df.dropna()]: the rows without a nan. *)
Definition keep_row (df : DataFrame) (i : nat) : bool :=
  forallb (fun c : string * list float => negb (PrimFloat.is_nan (nth_value (snd c) i)))
          (data df).

Definition select {A : Type} (keep : nat -> bool) (xs : list A) : list A :=
  map snd (filter (fun p : nat * A => keep (fst p)) (combine (seq 0 (List.length xs)) xs)).

Definition dropna (df : DataFrame) : DataFrame :=
  {| index := select (keep_row df) (index df);
     data := map (fun c : string * list float => (fst c, select (keep_row df) (snd c)))
                 (data df) |}.

(** The selection [select] makes when the positions are counted from [a]:
    [select keep xs] is [select_from keep 0 xs]. *)
Definition select_from {A : Type} (keep : nat -> bool) (a : nat) (xs : list A)
  : list A :=
  map snd (filter (fun p : nat * A => keep (fst p))
             (combine (seq a (List.length xs)) xs)).

(** [df.tail(n)]: the last [n] rows, and all the rows but the first [-n]
    for a negative [n]. *)
Definition tail (n : Z) (df : DataFrame) : DataFrame :=
  let len := List.length (index df) in
  let k := if n <? 0 then Z.to_nat (- n) else (len - Z.to_nat n)%nat in
  {| index := skipn k (index df);
     data := map (fun c : string * list float => (fst c, skipn k (snd c)))
                 (data df) |}.

(** [df.columns = names]: a [ValueError] unless there is a name for each
    column. *)
Definition set_columns (names : list string) (df : DataFrame) : result DataFrame :=
  if (List.length names =? List.length (data df))%nat
  then Ok {| index := index df; data := combine names (map snd (data df)) |}
  else Raise ValueError.

End Pandas.

(** ** Methods run on [self]: state and exceptions *)

Module Method.
Section Method.
Context {S : Type}.

Definition M (A : Type) : Type := S -> result A * S.

Definition ret {A : Type} (a : A) : M A := fun s => (Ok a, s).

Definition raise {A : Type} (x : exn) : M A := fun s => (Raise x, s).

Definition bind {A B : Type} (m : M A) (k : A -> M B) : M B :=
  fun s => match m s with
           | (Ok a, s') => k a s'
           | (Raise x, s') => (Raise x, s')
           end.

Definition lift {A : Type} (r : result A) : M A := fun s => (r, s).

Definition self : M S := fun s => (Ok s, s).

Definition modify (f : S -> S) : M unit := fun s => (Ok tt, f s).

(** [assert b]. *)
Definition assert (b : bool) : M unit :=
  if b then ret tt else raise AssertionError.

(** [try: m except ValueError as e: raise x from e]. *)
Definition except_ValueError {A : Type} (m : M A) (x : exn) : M A :=
  fun s => match m s with
           | (Raise ValueError, s') => (Raise x, s')
           | r => r
           end.

End Method.
Arguments M : clear implicits.
End Method.
Import Method.

Notation "x <- m ;; k" := (bind m (fun x => k))
  (at level 61, m at next level, right associativity).
Notation "m ;;; k" := (bind m (fun _ => k))
  (at level 61, right associativity).

(** ** [src/alpha/base.py]: the conversion of float attributes *)

Module Alpha.

(** The parameters [type_convert(self, _from, _to)] declares. *)
Definition type_convert_parameters : list string := ["_from"; "_to"].

(** [self.type_convert(_from=float, _to=Float, by_alias=False)], the call
    that ends [Calc.__init__], [Condition.__init__], [Order.__init__] and
    [Msg.__init__].  It passes a keyword that [type_convert] does not
    declare, so no attribute is converted: the body never runs and is left
    out. *)
Definition type_convert_by_alias : result unit :=
  Py.keywords type_convert_parameters ["_from"; "_to"; "by_alias"].

End Alpha.

(** ** [src/alpha/msg.py] *)

Module Msg.

(** The two fields of a ticker message that [feed] reads. *)
Record Msg : Type := {
  time : string;
  price : float
}.

(** What a live [update] takes from outside the program.
    [ticker_latest asset] stands for [ticker_latest(asset=asset,
    remove=False)] of [static.py] followed by the validation of the fields
    in [super().__init__]: the fields of the latest message of the
    asset, or the exception raised on the way.  [iso_to_epoch] is the one
    of [static.py], the epoch in seconds of an ISO time. *)
Record Ticker : Type := {
  ticker_latest : string -> result Msg;
  iso_to_epoch : string -> result float
}.

(** [Msg(...)]: what [__init__] does once [super().__init__] has set the
    fields [data]. *)
Definition __init__ (data : result Msg) : result Msg :=
  let? self := data in
  let? _ := Alpha.type_convert_by_alias in
  Ok self.

(** [self.feed()]: the minute of the message and the row
    [{'price': self.price}]. *)
Definition feed (env : Ticker) (self : Msg) : result (Z * Dict.dict string float) :=
  let? epoch := iso_to_epoch env (time self) in
  let? minute := Py.int_of_float (epoch / 60)%float in
  Ok (minute, [("price", price self)]).

End Msg.

(** ** [src/alpha/coinframe.py] *)

Module CoinFrame.

(** The attributes of a [CoinFrame].  [_obj] is the frame the accessor
    wraps; [_src] is the live buffer and [_src_backtest] the replay queue,
    both from timestamp to row, a row being the dictionary
    [{'price': p}]. *)
Record CoinFrame : Type := {
  asset_id : option string;
  i : Z;
  e : Z;
  calcs : Dict.dict string float;
  _obj : Pandas.DataFrame;
  _src : Dict.dict Z Pandas.row;
  is_backtest : bool;
  _src_backtest : Dict.dict Z Pandas.row;
  n : Z
}.

Definition set_calcs (c : Dict.dict string float) (s : CoinFrame) : CoinFrame :=
  {| asset_id := asset_id s; i := i s; e := e s; calcs := c; _obj := _obj s;
     _src := _src s; is_backtest := is_backtest s;
     _src_backtest := _src_backtest s; n := n s |}.

Definition set_obj (o : Pandas.DataFrame) (s : CoinFrame) : CoinFrame :=
  {| asset_id := asset_id s; i := i s; e := e s; calcs := calcs s; _obj := o;
     _src := _src s; is_backtest := is_backtest s;
     _src_backtest := _src_backtest s; n := n s |}.

Definition set_src (d : Dict.dict Z Pandas.row) (s : CoinFrame) : CoinFrame :=
  {| asset_id := asset_id s; i := i s; e := e s; calcs := calcs s; _obj := _obj s;
     _src := d; is_backtest := is_backtest s;
     _src_backtest := _src_backtest s; n := n s |}.

Definition set_src_backtest (d : Dict.dict Z Pandas.row) (s : CoinFrame) : CoinFrame :=
  {| asset_id := asset_id s; i := i s; e := e s; calcs := calcs s; _obj := _obj s;
     _src := _src s; is_backtest := is_backtest s;
     _src_backtest := d; n := n s |}.

(** [CoinFrame(df, i, n, e, asset=..., is_backtest=...)]. *)
Definition __init__ (df : Pandas.DataFrame) (i n e : option Z)
  (asset : option string) (is_backtest : bool) : CoinFrame :=
  let or0 (o : option Z) (d : Z) : Z :=
    match o with
    | Some z => if z =? 0 then d else z
    | None => d
    end in
  {| asset_id := asset; i := or0 i 0; e := or0 e (0 + 1); calcs := [];
     _obj := df; _src := []; is_backtest := is_backtest;
     _src_backtest := []; n := or0 n 0 |}.

Definition M : Type -> Type := Method.M CoinFrame.

(** *** Descriptive methods and state management *)

(** [src(r, backtest)] (its parameter [i], which indexes the result, is
    left at its default).  An empty [_src] is reloaded from the frame
    before either buffer is returned. *)
Definition src (r backtest : bool) : M (Dict.dict Z Pandas.row) :=
  s <- self ;;
  (if negb (Dict.nonempty (_src s)) || r
   then modify (set_src (Pandas.to_dict_index (_obj s)))
   else ret tt) ;;;
  s <- self ;;
  ret (if negb backtest then _src s else _src_backtest s).

(** The live buffer of a frame in state [s], as [src()] returns it: [_src],
    or the rows of the frame while [_src] is still empty. *)
Definition live (s : CoinFrame) : Dict.dict Z Pandas.row :=
  if Dict.nonempty (_src s) then _src s else Pandas.to_dict_index (_obj s).

Definition first (backtest : bool) : M Z :=
  d <- src false backtest ;; lift (Py.min (Dict.keys d)).

Definition last (backtest : bool) : M Z :=
  d <- src false backtest ;; lift (Py.max (Dict.keys d)).

(** [from_dict(src)]; [None] is the default argument. *)
Definition from_dict (src : option (Dict.dict Z Pandas.row)) : M unit :=
  s <- self ;;
  let src := match src with
             | Some d => if Dict.nonempty d then d else _src s
             | None => _src s
             end in
  modify (set_obj (Pandas.from_dict_index src)).

(** [self._src.pop(k)] and [self._src_backtest.pop(k)]. *)
Definition pop_src (k : Z) : M Pandas.row :=
  s <- self ;;
  p <- lift (Dict.pop k (_src s)) ;;
  modify (set_src (snd p)) ;;;
  ret (fst p).

Definition pop_src_backtest (k : Z) : M Pandas.row :=
  s <- self ;;
  p <- lift (Dict.pop k (_src_backtest s)) ;;
  modify (set_src_backtest (snd p)) ;;;
  ret (fst p).

Definition _update_backtest : M unit :=
  except_ValueError
    (tmstmp <- first true ;;
     oldest <- first false ;;
     _ <- pop_src oldest ;;
     next <- first true ;;
     price <- pop_src_backtest next ;;
     modify (fun s => set_src (Dict.setitem tmstmp price (_src s)) s) ;;;
     from_dict None)
    BackTestCompletedError.

Definition str_or (a b : option string) : option string :=
  match a with
  | Some s => if String.eqb s "" then b else a
  | None => b
  end.

Definition str_truthy (a : option string) : bool :=
  match a with
  | Some s => negb (String.eqb s "")
  | None => false
  end.

(** The statements of [update] that follow the reading of the feed, on
    the pair [(tmstmp, price)] read. *)
Definition update_window (feed : Z * Pandas.row) : M unit :=
  let tmstmp := fst feed in
  let price := snd feed in
  newest <- last false ;;
  (if (tmstmp - newest) >? 0
   then (k <- last false ;; _ <- pop_src k ;; ret tt)
   else ret tt) ;;;
  modify (fun s => set_src (Dict.setitem tmstmp price (_src s)) s) ;;;
  from_dict None.

(** [update(asset)]; [feed] is what the call finds outside the program,
    the latest ticker message. *)
Definition update (asset : option string) (feed : Msg.Ticker) : M unit :=
  s <- self ;;
  let asset := str_or asset (asset_id s) in
  if negb (str_truthy asset) then raise ValueError
  else if is_backtest s then _update_backtest
  else
    let name := match asset with
                | Some a => a
                | None => ""
                end in
    pair <- lift (let? msg := Msg.__init__ (Msg.ticker_latest feed name) in
                  Msg.feed feed msg) ;;
    update_window pair.

(** *** Calculations *)

Fixpoint cache_items (r : Pandas.row) (c : Dict.dict string float)
  : Dict.dict string float :=
  match r with
  | [] => c
  | (k, v) :: r' => cache_items r' (Dict.setitem k v c)
  end.

(** [cache(df)]: the last row goes to [calcs]; the rows without nan are
    returned. *)
Definition cache (df : Pandas.DataFrame) : M Pandas.DataFrame :=
  r <- lift (Py.getitem (Pandas.tail1_records df) 0) ;;
  modify (fun s => set_calcs (cache_items r (calcs s)) s) ;;;
  ret (Pandas.dropna df).

(** [n or self.i]. *)
Definition or_i (n : option Z) (s : CoinFrame) : Z :=
  match n with
  | Some z => if z =? 0 then i s else z
  | None => i s
  end.

Fixpoint drop_all (names : list string) (df : Pandas.DataFrame)
  : result Pandas.DataFrame :=
  match names with
  | [] => Ok df
  | c :: names' => let? df' := Pandas.drop c df in drop_all names' df'
  end.

(** [ema(n, suffix, drop_cols, on_copy)].  No step writes to the frame it
    starts from ([pd.concat] builds a new one), so [on_copy] has no effect
    and is left out. *)
Definition ema (n : option Z) (suffix drop_cols : bool) : M Pandas.DataFrame :=
  s <- self ;;
  let df := _obj s in
  let n := or_i n s in
  let sfx := if suffix then ("_" ++ Py.str_of_int n)%string else "" in
  multiplier <- lift (Py.int_truediv 2 (n + 1)) ;;
  let _sfx := Py.strip "_" sfx in
  let sma_col := ("sma (n=" ++ _sfx ++ ")")%string in
  let ema1_col := ("ema (i=1, n=" ++ _sfx ++ ")")%string in
  rolled <- lift (Pandas.rolling Pandas.mean n df) ;;
  let df_rolling_n := Pandas.rename "price" sma_col rolled in
  let df := Pandas.concat1 df df_rolling_n in
  price <- lift (Pandas.getattr "price" df) ;;
  sma <- lift (Pandas.getitem sma_col df) ;;
  let df :=
    Pandas.setitem ema1_col
      (Pandas.map2 PrimFloat.add
         (map (fun p => p * multiplier)%float price)
         (map (fun a => a * (1 - multiplier))%float (Pandas.shift1 sma)))
      df in
  df <- lift (if drop_cols then drop_all [sma_col; "price"] df else Ok df) ;;
  cache df.

(** [max(n)]; [int(None)] is a [TypeError]. *)
Definition max (n : option Z) : M Pandas.DataFrame :=
  match n with
  | None => raise TypeError
  | Some n =>
      s <- self ;;
      let n_or_hist := if n =? 0 then "hist" else Py.str_of_int n in
      let suffix := ("max (n=" ++ n_or_hist ++ ")")%string in
      df <- lift (if negb (n =? 0)
                  then Pandas.rolling Pandas.wmax n (_obj s)
                  else Ok (Pandas.cummax (_obj s))) ;;
      c0 <- lift (Py.getitem (Pandas.columns (_obj s)) 0) ;;
      cache (Pandas.rename c0 suffix df)
  end.

Definition min (n : option Z) : M Pandas.DataFrame :=
  match n with
  | None => raise TypeError
  | Some n =>
      s <- self ;;
      let n_or_hist := if n =? 0 then "hist" else Py.str_of_int n in
      let suffix := ("min (n=" ++ n_or_hist ++ ")")%string in
      df <- lift (if n >? 0
                  then Pandas.rolling Pandas.wmin n (_obj s)
                  else Ok (Pandas.cummin (_obj s))) ;;
      c0 <- lift (Py.getitem (Pandas.columns (_obj s)) 0) ;;
      cache (Pandas.rename c0 suffix df)
  end.

(** [spread(n)].  [n > 1] on [None] is a [TypeError].  [df_max.max_hist]
    and [df_min.min_hist] read columns as attributes.  Their difference is
    a pandas Series, and [cache] calls [to_dict(orient='records')] on what
    it is given: [Series.to_dict] has no parameter [orient], a
    [TypeError]. *)
Definition spread (n : option Z) : M Pandas.DataFrame :=
  match n with
  | None => raise TypeError
  | Some z =>
      let n_or_hist :=
        if negb (z =? 0) || (z >? 1) then Py.str_of_int z else "hist" in
      let suffix := ("spread (n=" ++ n_or_hist ++ ")")%string in
      df_max <- max n ;;
      df_min <- min n ;;
      max_hist <- lift (Pandas.getattr "max_hist" df_max) ;;
      min_hist <- lift (Pandas.getattr "min_hist" df_min) ;;
      let df_spread := Pandas.map2 PrimFloat.sub max_hist min_hist in
      let _ := (suffix, df_spread) in
      raise TypeError
  end.

(** The buffer that holds the (timestamp, price) pairs [w]: one row
    [{'price': p}] per pair. *)
Definition window_rows (w : list (Z * float)) : Dict.dict Z Pandas.row :=
  map (fun kp : Z * float => (fst kp, [("price", snd kp)])) w.

(** [dema(n, suffix, drop_cols, on_copy)]; as in [ema], [on_copy] has no
    effect and is left out. *)
Definition dema (n : option Z) (suffix drop_cols : bool) : M Pandas.DataFrame :=
  s <- self ;;
  let df := _obj s in
  let n := or_i n s in
  let sfx := if suffix then ("_" ++ Py.str_of_int n)%string else "" in
  multiplier <- lift (Py.int_truediv 2 (n + 1)) ;;
  let _sfx := Py.strip "_" sfx in
  let sma_col := ("sma (n=" ++ _sfx ++ ")")%string in
  let ema1_col := ("ema (i=1, n=" ++ _sfx ++ ")")%string in
  let ema2_col := ("ema2 (i=2, n=" ++ _sfx ++ ")")%string in
  let dema_col := ("dema (n=" ++ _sfx ++ ")")%string in
  rolled <- lift (Pandas.rolling Pandas.mean n df) ;;
  let df := Pandas.concat1 df (Pandas.rename "price" sma_col rolled) in
  price <- lift (Pandas.getattr "price" df) ;;
  sma <- lift (Pandas.getitem sma_col df) ;;
  let df :=
    Pandas.setitem ema1_col
      (Pandas.map2 PrimFloat.add
         (map (fun p => p * multiplier)%float price)
         (map (fun a => a * (1 - multiplier))%float (Pandas.shift1 sma)))
      df in
  price <- lift (Pandas.getattr "price" df) ;;
  ema1 <- lift (Pandas.getitem ema1_col df) ;;
  let df :=
    Pandas.setitem ema2_col
      (Pandas.map2 PrimFloat.add
         (map (fun p => p * multiplier)%float price)
         (map (fun a => a * (1 - multiplier))%float (Pandas.shift1 ema1)))
      df in
  ema1 <- lift (Pandas.getitem ema1_col df) ;;
  ema2 <- lift (Pandas.getitem ema2_col df) ;;
  let df :=
    Pandas.setitem dema_col
      (Pandas.map2 PrimFloat.sub (map (fun a => 2 * a)%float ema1) ema2)
      df in
  df <- lift (if drop_cols
              then drop_all [sma_col; ema1_col; ema2_col; "price"] df
              else Ok df) ;;
  cache df.

(** [n or 1]. *)
Definition or_1 (n : option Z) : Z :=
  match n with
  | Some z => if z =? 0 then 1 else z
  | None => 1
  end.

(** [price(n)]: the copy made of the last rows leaves the frame as it is. *)
Definition price (n : option Z) : M Pandas.DataFrame :=
  s <- self ;;
  df <- lift (Pandas.set_columns ["price"] (Pandas.tail (or_1 n) (_obj s))) ;;
  cache df.

End CoinFrame.

(** ** [src/alpha/condition.py] *)

Module Calc.

(** [bound] is the int [-1] or a [Float] once [__init__] has set it; [val]
    is the resolved value. *)
Record Calc : Type := {
  raw : list string;
  nm : string;
  bound : value;
  val : float;
  is_ma : bool
}.

Definition set_nm_bound (n : string) (b : value) (self : Calc) : Calc :=
  {| raw := raw self; nm := n; bound := b; val := val self;
     is_ma := is_ma self |}.

Definition set_is_ma (b : bool) (self : Calc) : Calc :=
  {| raw := raw self; nm := nm self; bound := bound self; val := val self;
     is_ma := b |}.

(** The object [super().__init__] leaves of [Calc(raw=raw)]: [raw]
    as passed, the other fields at their defaults ([str()], [float()],
    [bool()]). *)
Definition fresh (raw : list string) : Calc :=
  {| raw := raw; nm := ""; bound := VFloat 0; val := 0; is_ma := false |}.

Section Calc.
Variable float_of_str : string -> option float.
(** [dir(object())], the names every object has ([__class__], [__doc__],
    [__eq__], ...); the list depends on the version of Python. *)
Variable dir_object : list string.

(** [dir(CoinFrame())]: the names of the class and of its instance, the
    three names an instance of a class without [__slots__] adds, and the
    names every object has. *)
Definition dir_CoinFrame : list string :=
  ["__call__"; "__init__"; "__str__"; "_obj"; "_src"; "_src_backtest";
   "_update_backtest"; "asset_id"; "cache"; "calcs"; "col"; "columns";
   "dema"; "dema_delta"; "df"; "e"; "ema"; "first"; "from_dict"; "i";
   "is_backtest"; "last"; "max"; "min"; "n"; "prep_backtest"; "price";
   "spread"; "src"; "update"; "validate"]
  ++ ["__dict__"; "__module__"; "__weakref__"]
  ++ dir_object.

(** [__init__], after [super().__init__].  Each of the two
    assignments evaluates its right-hand side before it sets [nm] and
    [bound]. *)
Definition __init__ : Method.M Calc unit :=
  s <- self ;;
  p <- lift (if (List.length (raw s) =? 2)%nat
             then let? r0 := Py.getitem (raw s) 0 in
                  let? r1 := Py.getitem (raw s) 1 in
                  let? b := Number.Float float_of_str (Some (VStr r1)) in
                  Ok (r0, VFloat b)
             else let? r0 := Py.getitem (raw s) 0 in
                  Ok (r0, VInt (-1))) ;;
  modify (set_nm_bound (fst p) (snd p)) ;;;
  s <- self ;;
  (if Py.endswith (nm s) "*"
   then b <- lift (Number.Float float_of_str (Some (bound s))) ;;
        b60 <- lift (Number.__mul__ float_of_str b 60) ;;
        modify (set_nm_bound (Py.drop_last 1 (nm s)) (VFloat b60))
   else if Py.endswith (nm s) "**"
   then b <- lift (Number.Float float_of_str (Some (bound s))) ;;
        b60 <- lift (Number.__mul__ float_of_str b 60) ;;
        modify (set_nm_bound (Py.drop_last 2 (nm s)) (VFloat b60))
   else ret tt) ;;;
  s <- self ;;
  modify (set_is_ma (existsb (String.eqb (nm s)) dir_CoinFrame)) ;;;
  lift Alpha.type_convert_by_alias.

(** [Calc(raw=raw)]: the object, when [__init__] returns. *)
Definition new (raw : list string) : result Calc :=
  match __init__ (fresh raw) with
  | (Ok _, c) => Ok c
  | (Raise e, _) => Raise e
  end.

Definition __float__ (self : Calc) : float := val self.

Definition __bool__ (self : Calc) : bool := Py.float_bool (val self).

(** [self / other]; [Float(other)] converts [other] through its
    [__float__]. *)
Definition __truediv__ (self other : Calc) : result float :=
  if __bool__ self && __bool__ other
  then let? d := Number.Float float_of_str (Some (VFloat (__float__ other))) in
       let? q := Py.float_truediv (__float__ self) d in
       Number.Float float_of_str (Some (VFloat q))
  else Number.Float float_of_str None.

Definition set_val (v : float) (self : Calc) : Calc :=
  {| raw := raw self; nm := nm self; bound := bound self; val := v;
     is_ma := is_ma self |}.

(** [self.name]: the name in the master [calcs] dictionary.  A [bound] that
    is a float is a [Float]: [__init__] sets [bound] to a [Float] or to the
    int [-1]. *)
Definition name (self : Calc) : result string :=
  match bound self with
  | VFloat b =>
      let? z := Py.int_of_float b in
      Ok (nm self ++ " (n=" ++ Py.str_of_int z ++ ")")%string
  | _ => Ok (nm self)
  end.

(** Two states of a calc that differ in the value at most. *)
Definition same_but_val (old new : Calc) : Prop :=
  raw new = raw old /\ nm new = nm old /\ bound new = bound old
  /\ is_ma new = is_ma old.

End Calc.
End Calc.

Module Condition.

Record Condition : Type := {
  raw : list (list string);
  t_r : string;
  t : float;
  gt : bool;
  eq : bool;
  calcs : Dict.dict Z Calc.Calc;
  mode : string
}.

Definition set_calcs (cs : Dict.dict Z Calc.Calc) (self : Condition) : Condition :=
  {| raw := raw self; t_r := t_r self; t := t self; gt := gt self;
     eq := eq self; calcs := cs; mode := mode self |}.

Definition set_t_r (x : string) (self : Condition) : Condition :=
  {| raw := raw self; t_r := x; t := t self; gt := gt self;
     eq := eq self; calcs := calcs self; mode := mode self |}.

Definition set_t (x : float) (self : Condition) : Condition :=
  {| raw := raw self; t_r := t_r self; t := x; gt := gt self;
     eq := eq self; calcs := calcs self; mode := mode self |}.

Definition set_gt (b : bool) (self : Condition) : Condition :=
  {| raw := raw self; t_r := t_r self; t := t self; gt := b;
     eq := eq self; calcs := calcs self; mode := mode self |}.

Definition set_eq (b : bool) (self : Condition) : Condition :=
  {| raw := raw self; t_r := t_r self; t := t self; gt := gt self;
     eq := b; calcs := calcs self; mode := mode self |}.

(** The object [super().__init__] leaves of
    [Condition(raw=raw, mode=mode)]: the other fields at their defaults
    ([eq], which is no field, is not set yet). *)
Definition fresh (raw : list (list string)) (mode : string) : Condition :=
  {| raw := raw; t_r := ""; t := 0; gt := false; eq := false; calcs := [];
     mode := mode |}.

Section Condition.
Variable float_of_str : string -> option float.

(** [dir(object())], as for [Calc]. *)
Variable dir_object : list string.

(** The statements of [__init__] that read the threshold token: they set
    [t_r], [eq], [gt] and [t]. *)
Definition threshold : Method.M Condition unit :=
  s <- self ;;
  rl <- lift (Py.getlast (raw s)) ;;
  tok <- lift (Py.getitem rl 0) ;;
  modify (set_t_r tok) ;;;
  s <- self ;;
  modify (set_eq (Py.endswith (t_r s) "**")) ;;;
  modify (set_gt (Py.endswith (t_r s) "*" && negb (Py.endswith (t_r s) "**"))) ;;;
  s <- self ;;
  x <- lift (if gt s then Number.float_ float_of_str (VStr (Py.drop_last 1 (t_r s)))
             else if eq s then Number.float_ float_of_str (VStr (Py.drop_last 2 (t_r s)))
             else Number.float_ float_of_str (VStr (t_r s))) ;;
  modify (set_t x).

(** [__init__], after [super().__init__]: the two calcs, the threshold,
    the conversion. *)
Definition __init__ : Method.M Condition unit :=
  s <- self ;;
  r0 <- lift (Py.getitem (raw s) 0) ;;
  c1 <- lift (Calc.new float_of_str dir_object r0) ;;
  r1 <- lift (Py.getitem (raw s) 1) ;;
  c2 <- lift (Calc.new float_of_str dir_object r1) ;;
  modify (set_calcs [(1, c1); (2, c2)]) ;;;
  threshold ;;;
  lift Alpha.type_convert_by_alias.

(** [Condition(raw=raw, mode=mode)]: the object, when [__init__]
    returns. *)
Definition new (raw : list (list string)) (mode : string) : result Condition :=
  match __init__ (fresh raw mode) with
  | (Ok _, c) => Ok c
  | (Raise e, _) => Raise e
  end.

(** [any(c.nm == 'price-last' and not bool(c) for c in self.calcs.values())]. *)
Definition unset_price_last (self : Condition) : bool :=
  existsb (fun c => String.eqb (Calc.nm c) "price-last" && negb (Calc.__bool__ c))
          (Dict.values (calcs self)).

Definition actual (self : Condition) : result float :=
  if unset_price_last self then Number.Float float_of_str None
  else let? c2 := Dict.getitem 2 (calcs self) in
       let? c1 := Dict.getitem 1 (calcs self) in
       Calc.__truediv__ float_of_str c2 c1.

Definition __bool__ (self : Condition) : result bool :=
  if unset_price_last self then Ok true
  else if gt self then let? a := actual self in Ok (PrimFloat.ltb (t self) a)
  else if eq self then let? a := actual self in Ok (PrimFloat.eqb a (t self))
  else let? a := actual self in Ok (PrimFloat.ltb a (t self)).

(** What [apply] raises: [ConditionNotFoundError], kept with the name that
    was looked up, or the error of building a name or a value. *)
Inductive apply_error : Type :=
| ConditionNotFoundError (name : string)
| Error (e : exn).

(** [[v for k, v in calcs.items() if k == name]]. *)
Definition matches (name : string) (latest : Dict.dict string float) : list float :=
  map snd (filter (fun kv => String.eqb (fst kv) name) latest).

(** One round of the loop of [apply], on the calc [c]: the calc with its
    value set, or the error raised. *)
Definition apply_calc (latest : Dict.dict string float) (c : Calc.Calc)
  : apply_error + Calc.Calc :=
  match Calc.name c with
  | Raise e => inl (Error e)
  | Ok name =>
      match matches name latest with
      | [] => inl (ConditionNotFoundError name)
      | v :: _ =>
          match Number.Float float_of_str (Some (VFloat v)) with
          | Ok x => inr (Calc.set_val x c)
          | Raise e => inl (Error e)
          end
      end
  end.

(** The loop of [apply] over [self.calcs.items()]: the calcs are updated
    in place, so those before the one that raises keep their new value. *)
Fixpoint apply_items (latest : Dict.dict string float)
  (items : Dict.dict Z Calc.Calc) : option apply_error * Dict.dict Z Calc.Calc :=
  match items with
  | [] => (None, [])
  | (i, c) :: rest =>
      match apply_calc latest c with
      | inl e => (Some e, (i, c) :: rest)
      | inr c' =>
          let r := apply_items latest rest in
          (fst r, (i, c') :: snd r)
      end
  end.

(** [self.apply(calcs)]: the error raised, if any, and [self] afterwards. *)
Definition apply (latest : Dict.dict string float) (self : Condition)
  : option apply_error * Condition :=
  let r := apply_items latest (calcs self) in
  (fst r, set_calcs (snd r) self).

End Condition.
End Condition.

(** ** [src/alpha/order.py]: the fields a mock order sets *)

Module Order.

Record Order : Type := {
  oid : string;
  model_id : string;
  side : string;
  funds : float;
  specified_funds : float;
  executed_value : float;
  filled_size : float;
  settled : bool
}.

(** [Order(id=..., model_id=..., side=..., ...)], on the fields the mock
    order book passes ([created_at] and [done_at], the wall-clock time, are
    left out). *)
Definition __init__ (id model_id side : string)
  (funds specified_funds executed_value filled_size : float) (settled : bool)
  : result Order :=
  let self := {| oid := id; model_id := model_id; side := side;
                 funds := funds; specified_funds := specified_funds;
                 executed_value := executed_value;
                 filled_size := filled_size; settled := settled |} in
  let? _ := Alpha.type_convert_by_alias in
  Ok self.

End Order.

(** ** [src/alpha/mocks/order_book.py] *)

Module OrderBook.

Record OrderBook : Type := {
  usd : float;
  amt : float;
  asset : string;
  orders : Dict.dict Z Order.Order;
  _id : Z
}.

Definition set_usd (x : float) (s : OrderBook) : OrderBook :=
  {| usd := x; amt := amt s; asset := asset s; orders := orders s; _id := _id s |}.

Definition set_amt (x : float) (s : OrderBook) : OrderBook :=
  {| usd := usd s; amt := x; asset := asset s; orders := orders s; _id := _id s |}.

Definition set_orders (o : Dict.dict Z Order.Order) (s : OrderBook) : OrderBook :=
  {| usd := usd s; amt := amt s; asset := asset s; orders := o; _id := _id s |}.

Section OrderBook.
Variable float_of_str : string -> option float.
(** [md5_hash] of [static.py], the hex digest of an MD5 hash. *)
Variable md5_hash : string -> string.

Definition M : Type -> Type := Method.M OrderBook.

(** [usd or Float()]. *)
Definition or_Float (x : option float) : result float :=
  match x with
  | Some y => if Py.float_bool y then Ok y else Number.Float float_of_str None
  | None => Number.Float float_of_str None
  end.

(** [OrderBook(usd, amt)]. *)
Definition __init__ (usd amt : option float) : result OrderBook :=
  let? u := or_Float usd in
  let? a := or_Float amt in
  Ok {| usd := u; amt := a; asset := ""; orders := []; _id := 0 |}.

Definition order_id (s : OrderBook) (tm : Z) : string :=
  md5_hash (Py.str_of_int (_id s) ++ Py.str_of_int tm)%string.

Definition _sell (price : float) (tm : Z) : M Order.Order :=
  s <- self ;;
  p <- lift (Number.__mul__ float_of_str (amt s) price) ;;
  usd' <- lift (Number.__add__ float_of_str (usd s) p) ;;
  assert (Py.float_bool usd') ;;;
  zero <- lift (Number.Float float_of_str None) ;;
  lift (Order.__init__ (order_id s tm) (Py.str_of_int (_id s)) "sell"
          zero zero usd' (amt s) true).

Definition _buy (price : float) (tm : Z) : M Order.Order :=
  s <- self ;;
  q <- lift (Number.__truediv__ float_of_str (usd s) price) ;;
  amt' <- lift (Number.__add__ float_of_str (amt s) q) ;;
  assert (negb (PrimFloat.eqb amt' 0)) ;;;
  lift (Order.__init__ (order_id s tm) (Py.str_of_int (_id s)) "buy"
          (usd s) (usd s) (usd s) amt' true).

Definition order (mode : string) (price : float) (tm : Z) : M Order.Order :=
  order <- (if String.eqb mode "sell" then _sell price tm else _buy price tm) ;;
  modify (fun s => set_orders (Dict.setitem tm order (orders s)) s) ;;;
  (if String.eqb mode "buy"
   then s <- self ;;
        q <- lift (Number.__truediv__ float_of_str (usd s) price) ;;
        a <- lift (Number.__add__ float_of_str (amt s) q) ;;
        modify (set_amt a) ;;;
        s <- self ;;
        assert (Py.float_bool (amt s)) ;;;
        zero <- lift (Number.Float float_of_str None) ;;
        modify (set_usd zero)
   else if String.eqb mode "sell"
   then s <- self ;;
        p <- lift (Number.__mul__ float_of_str (amt s) price) ;;
        u <- lift (Number.__add__ float_of_str (usd s) p) ;;
        modify (set_usd u) ;;;
        s <- self ;;
        assert (Py.float_bool (usd s)) ;;;
        zero <- lift (Number.Float float_of_str None) ;;
        modify (set_amt zero)
   else ret tt) ;;;
  ret order.

(** Exactly one of the two balances is nonzero. *)
Definition one_sided (s : OrderBook) : bool :=
  xorb (Py.float_bool (usd s)) (Py.float_bool (amt s)).

(** The books reached from [s0] by calls of [order] that return, each at a
    positive price. *)
Inductive reachable (s0 : OrderBook) : OrderBook -> Prop :=
| reach_start : reachable s0 s0
| reach_order (s s' : OrderBook) (mode : string) (price : float) (tm : Z)
    (o : Order.Order) :
    reachable s0 s ->
    PrimFloat.ltb 0 price = true ->
    order mode price tm s = (Ok o, s') ->
    reachable s0 s'.

End OrderBook.
End OrderBook.

(** ** [src/alpha/outcome.py] *)

Module Outcome.

Record Outcome : Type := {
  nm : string;
  _cds : list (list (list string));
  mode : string;
  cds : Dict.dict Z Condition.Condition
}.

Definition set_cds (d : Dict.dict Z Condition.Condition) (self : Outcome) : Outcome :=
  {| nm := nm self; _cds := _cds self; mode := mode self; cds := d |}.

Section Outcome.
Variable float_of_str : string -> option float.
(** [dir(object())], as for [Calc]. *)
Variable dir_object : list string.

(** The loop of [__init__]: [self.cds[i] = Condition(raw=r, mode=mode)] for
    [i, r] in [enumerate(self._cds, start=i)]. *)
Fixpoint init_cds (i : Z) (rs : list (list (list string))) (mode : string)
  (acc : Dict.dict Z Condition.Condition) : result (Dict.dict Z Condition.Condition) :=
  match rs with
  | [] => Ok acc
  | r :: rs' =>
      let? c := Condition.new float_of_str dir_object r mode in
      init_cds (i + 1) rs' mode (Dict.setitem i c acc)
  end.

(** [Outcome(nm, conditions, mode)]. *)
Definition __init__ (nm : string) (conditions : list (list (list string)))
  (mode : string) : result Outcome :=
  let? d := init_cds 1 conditions mode [] in
  Ok {| nm := nm; _cds := conditions; mode := mode; cds := d |}.

(** [{c.name: c for c in cs}], continued from [acc]. *)
Fixpoint by_name (cs : list Calc.Calc) (acc : Dict.dict string Calc.Calc)
  : result (Dict.dict string Calc.Calc) :=
  match cs with
  | [] => Ok acc
  | c :: cs' =>
      let? n := Calc.name c in
      by_name cs' (Dict.setitem n c acc)
  end.

(** [self.calcs(ma, other)]. *)
Definition calcs (ma other : bool) (self : Outcome)
  : result (Dict.dict string Calc.Calc) :=
  let? total :=
    by_name (flat_map (fun cd => Dict.values (Condition.calcs cd))
               (Dict.values (cds self))) [] in
  if ma then Ok (filter (fun p => Calc.is_ma (snd p)) total)
  else if other then Ok (filter (fun p => negb (Calc.is_ma (snd p))) total)
  else Ok total.

(** The comprehension of [apply] over [self.cds.values()]; the conditions
    are updated in place and the first error ends it. *)
Fixpoint apply_items (latest : Dict.dict string float)
  (items : Dict.dict Z Condition.Condition)
  : option Condition.apply_error * Dict.dict Z Condition.Condition :=
  match items with
  | [] => (None, [])
  | (i, r) :: rest =>
      match Condition.apply float_of_str latest r with
      | (Some e, r') => (Some e, (i, r') :: rest)
      | (None, r') =>
          let q := apply_items latest rest in
          (fst q, (i, r') :: snd q)
      end
  end.

Definition apply (latest : Dict.dict string float) (self : Outcome)
  : option Condition.apply_error * Outcome :=
  let q := apply_items latest (cds self) in
  (fst q, set_cds (snd q) self).

(** [all(cs)], with the truth value of each condition taken in turn and
    none after the first false one. *)
Fixpoint all (cs : list Condition.Condition) : result bool :=
  match cs with
  | [] => Ok true
  | c :: cs' =>
      let? b := Condition.__bool__ float_of_str c in
      if b then all cs' else Ok false
  end.

(** [bool(self)]. *)
Definition __bool__ (self : Outcome) : result bool :=
  all (Dict.values (cds self)).

End Outcome.
End Outcome.

(** ** Inputs of the examples *)

Module Examples.

(** An instance of [float_of_str]: Python's [float] on the plain decimal
    literals [[+-]digits[.digits]], the nearest binary64 of the decimal. *)
Definition digit (c : ascii) : option Z :=
  let k := nat_of_ascii c in
  if (48 <=? k)%nat && (k <=? 57)%nat then Some (Z.of_nat (k - 48)) else None.

Fixpoint digits (s : string) (acc places : Z) (frac seen : bool) : option (Z * Z) :=
  match s with
  | EmptyString => if seen then Some (acc, places) else None
  | String c s' =>
      if Ascii.eqb c "." then (if frac then None else digits s' acc places true seen)
      else match digit c with
           | Some d => digits s' (10 * acc + d) (if frac then places + 1 else places) frac true
           | None => None
           end
  end.

Definition decimal_literal (s : string) : option float :=
  let signed :=
    match s with
    | String "-" r => (true, r)
    | String "+" r => (false, r)
    | _ => (false, s)
    end in
  match digits (snd signed) 0 0 false false with
  | Some (m, k) =>
      let x := Py.float_of_ratio m (10 ^ k) in
      Some (if fst signed then (- x)%float else x)
  | None => None
  end.

(** The row [{'price': p}]. *)
Definition row (p : float) : Pandas.row := [("price", p)].

(** The window [{0: 10, 1: 12, 2: 14, 3: 16}] behind the accessor. *)
Definition window : Dict.dict Z Pandas.row :=
  [(0, row 10); (1, row 12); (2, row 14); (3, row 16)].

Definition frame : CoinFrame.CoinFrame :=
  CoinFrame.__init__ (Pandas.from_dict_index window) None None None
    (Some "BTC-USD") false.

(** A live frame on the window [{0: 10, 1: 12, 2: 14}]. *)
Definition live3 : Dict.dict Z Pandas.row := [(0, row 10); (1, row 12); (2, row 14)].

Definition live_frame : CoinFrame.CoinFrame :=
  CoinFrame.__init__ (Pandas.from_dict_index live3) None None None
    (Some "BTC-USD") false.

(** A frame in back-test mode: live buffer [{0: 10, 1: 12, 2: 14}], replay
    queue [{3: 16, 4: 18}]. *)
Definition replay_frame : CoinFrame.CoinFrame :=
  CoinFrame.set_src_backtest [(3, row 16); (4, row 18)]
    (CoinFrame.set_src live3
       (CoinFrame.__init__ (Pandas.from_dict_index live3) None None None
          (Some "BTC-USD") true)).

(** The same frame once the replay queue is used up. *)
Definition exhausted_frame : CoinFrame.CoinFrame :=
  CoinFrame.set_src_backtest [] replay_frame.

(** The state of a condition that stands for the tokens
    [[["price-last"], ["dema", "30"], ["0.98*"]]] of a buy rule, before any
    value is applied. *)
Definition price_last : Calc.Calc :=
  {| Calc.raw := ["price-last"]; Calc.nm := "price-last";
     Calc.bound := VInt (-1); Calc.val := 0; Calc.is_ma := false |}.

Definition dema_30 : Calc.Calc :=
  {| Calc.raw := ["dema"; "30"]; Calc.nm := "dema";
     Calc.bound := VFloat 30; Calc.val := 0; Calc.is_ma := true |}.

Definition cold_raw : list (list string) :=
  [["price-last"]; ["dema"; "30"]; ["0.98*"]].

Definition cold_condition : Condition.Condition :=
  {| Condition.raw := cold_raw; Condition.t_r := "0.98*";
     Condition.t := 0.98; Condition.gt := true; Condition.eq := false;
     Condition.calcs := [(1, price_last); (2, dema_30)];
     Condition.mode := "buy" |}.

(** An order book holding 1000 of currency and no asset. *)
Definition book : OrderBook.OrderBook :=
  {| OrderBook.usd := 1000; OrderBook.amt := 0; OrderBook.asset := "";
     OrderBook.orders := []; OrderBook._id := 0 |}.

(** The same book once it holds 10 of the asset and no currency. *)
Definition book_after_buy : OrderBook.OrderBook :=
  {| OrderBook.usd := 0; OrderBook.amt := 10; OrderBook.asset := "";
     OrderBook.orders := []; OrderBook._id := 0 |}.

(** A ticker whose latest message has the time [time], of epoch [epoch],
    and the price [price]. *)
Definition ticker (time : string) (epoch price : float) : Msg.Ticker :=
  {| Msg.ticker_latest := fun _ => Ok {| Msg.time := time; Msg.price := price |};
     Msg.iso_to_epoch := fun _ => Ok epoch |}.

(** The message of minute 3 with price 16, and one of minute 9 with
    price 99. *)
Definition ticker_3 : Msg.Ticker := ticker "1970-01-01T00:03:00Z" 180 16.
Definition ticker_9 : Msg.Ticker := ticker "1970-01-01T00:09:00Z" 540 99.

(** A frame in back-test mode whose live buffer is empty while the replay
    queue holds one entry. *)
Definition empty_live_frame : CoinFrame.CoinFrame :=
  CoinFrame.set_src_backtest [(3, row 16)]
    (CoinFrame.__init__ (Pandas.from_dict_index []) None None None
       (Some "BTC-USD") true).

(** The latest values of a price and a double average. *)
Definition latest : Dict.dict string float :=
  [("price-last", 16%float); ("dema (n=30)", 15%float)].

(** An outcome that holds the cold-start condition twice. *)
Definition cold_outcome : Outcome.Outcome :=
  {| Outcome.nm := "buy";
     Outcome._cds := [cold_raw; cold_raw];
     Outcome.mode := "buy";
     Outcome.cds := [(1, cold_condition); (2, cold_condition)] |}.

(** A condition whose quotient, 0.5, is not above its threshold, and a
    condition that lost its calcs. *)
Definition low_condition : Condition.Condition :=
  Condition.set_calcs
    [(1, Calc.set_val 100 dema_30); (2, Calc.set_val 50 dema_30)]
    cold_condition.

Definition broken_condition : Condition.Condition :=
  Condition.set_calcs [] cold_condition.

Definition mixed_outcome : Outcome.Outcome :=
  {| Outcome.nm := "buy";
     Outcome._cds := [cold_raw; cold_raw; cold_raw];
     Outcome.mode := "buy";
     Outcome.cds := [(1, cold_condition); (2, low_condition);
                     (3, broken_condition)] |}.

(** A frame with the column [price] and no rows. *)
Definition no_rows : CoinFrame.CoinFrame :=
  CoinFrame.__init__ {| Pandas.index := []; Pandas.data := [("price", [])] |}
    None None None (Some "BTC-USD") false.

End Examples.

(** * Properties *)

(** ** The extended float *)

Section NumberFacts.
Variable float_of_str : string -> option float.

Lemma Float_of_float (x : float) :
  Number.Float float_of_str (Some (VFloat x)) = Ok x.
Proof.
  unfold Number.Float, Number.float_, Number.__init__, rbind.
  cbn [Number.str_endswith_star Py.truthy].
  destruct (Py.float_bool x); reflexivity.
Qed.

Lemma Float_default : Number.Float float_of_str None = Ok 0%float.
Proof. reflexivity. Qed.

Lemma Float_add (x y : float) :
  Number.__add__ float_of_str x y = Ok (x + y)%float.
Proof. apply Float_of_float. Qed.

Lemma Float_sub (x y : float) :
  Number.__sub__ float_of_str x y = Ok (x - y)%float.
Proof. apply Float_of_float. Qed.

Lemma Float_mul (x y : float) :
  Number.__mul__ float_of_str x y = Ok (x * y)%float.
Proof. apply Float_of_float. Qed.

Lemma Float_truediv (x y : float) :
  PrimFloat.eqb y 0 = false ->
  Number.__truediv__ float_of_str x y = Ok (x / y)%float.
Proof.
  intros Hy. unfold Number.__truediv__, Py.float_truediv.
  rewrite Hy. cbn [rbind]. apply Float_of_float.
Qed.

(** [Float(s)] on a string can only fail as [float(s)] does. *)
Lemma Float_of_str_error (s : string) (x : exn) :
  Number.Float float_of_str (Some (VStr s)) = Raise x -> x = ValueError.
Proof.
  unfold Number.Float, Number.__init__, rbind.
  cbn [Number.str_endswith_star Number.val_drop_last Number.float_].
  destruct (float_of_str s) as [y|]; [|congruence].
  destruct (Py.endswith s "*").
  - destruct (float_of_str (Py.drop_last 1 s)) as [z|]; [|congruence].
    cbn [Py.truthy Number.float_]. destruct (Py.float_bool (z * 60)); discriminate.
  - cbn [Py.truthy]. destruct (negb (String.eqb s "")); [|discriminate].
    cbn [Number.float_]. destruct (float_of_str s); [discriminate|congruence].
Qed.

End NumberFacts.

(** C10.  [Float(x)] keeps the value [float.__new__] gave it: on [0.0625]
    it is [0.0625], while [round(0.0625, 3)] is [0.062]; and the product
    [0.25 * 0.25], the quotient [1 / 16], the sum [0.03125 + 0.03125] and
    the difference [0.125 - 0.0625] of two [Float]s are [0.0625], not
    re-rounded to 3 decimal places. *)
Theorem Float_is_not_rounded (float_of_str : string -> option float) :
  Number.Float float_of_str (Some (VFloat 0.0625)) = Ok 0.0625%float
  /\ Py.round 0.0625 3 = 0.062%float
  /\ Py.round 0.0625 3 <> 0.0625%float
  /\ Number.__mul__ float_of_str 0.25 0.25 = Ok 0.0625%float
  /\ Number.__truediv__ float_of_str 1 16 = Ok 0.0625%float
  /\ Number.__add__ float_of_str 0.03125 0.03125 = Ok 0.0625%float
  /\ Number.__sub__ float_of_str 0.125 0.0625 = Ok 0.0625%float.
Proof.
  repeat split; try (vm_compute; reflexivity).
  vm_compute. discriminate.
Qed.

(** ** The indicators on the example window *)

(** C1.  On the window [{0: 10, 1: 12, 2: 14, 3: 16}], [ema(2)] returns the
    one-column frame [{2: 13.0, 3: 15.0}] and caches its last value.  The
    multiplier is [2 / (2 + 1)]; the trailing mean is nan at row 0 and its
    shift by one row is nan at rows 0 and 1, the rows [dropna] removes;
    row 2 is [14 * m + mean(10, 12) * (1 - m)] and row 3 is
    [16 * m + mean(12, 14) * (1 - m)]. *)
Theorem ema_2_on_example_window :
  let m := (2 / 3)%float in
  let prices := [10; 12; 14; 16]%float in
  Py.int_truediv 2 (2 + 1) = Ok m
  /\ Pandas.rolling_col Pandas.mean 2 prices = [nan; 11; 13; 15]%float
  /\ Pandas.shift1 (Pandas.rolling_col Pandas.mean 2 prices) = [nan; nan; 11; 13]%float
  /\ (14 * m + Pandas.mean [10; 12] * (1 - m) = 13)%float
  /\ (16 * m + Pandas.mean [12; 14] * (1 - m) = 15)%float
  /\ CoinFrame.ema (Some 2) true true Examples.frame
     = (Ok {| Pandas.index := [2; 3];
              Pandas.data := [("ema (i=1, n=2)", [13; 15]%float)] |},
        CoinFrame.set_calcs [("ema (i=1, n=2)", 15%float)] Examples.frame).
Proof.
  repeat split; vm_compute; reflexivity.
Qed.

(** C4.  On the example window [max(2)] and [min(2)] return frames whose
    only columns are named ["max (n=2)"] and ["min (n=2)"]; [spread(2)]
    reads the attributes [max_hist] and [min_hist], which no frame has,
    and raises [AttributeError].  The same happens for the whole-window
    call [spread(0)], whose columns are ["max (n=hist)"] and
    ["min (n=hist)"]. *)
Theorem spread_raises_on_example_window :
  fst (CoinFrame.max (Some 2) Examples.frame)
  = Ok {| Pandas.index := [1; 2; 3];
          Pandas.data := [("max (n=2)", [12; 14; 16]%float)] |}
  /\ fst (CoinFrame.min (Some 2) Examples.frame)
     = Ok {| Pandas.index := [1; 2; 3];
             Pandas.data := [("min (n=2)", [10; 12; 14]%float)] |}
  /\ fst (CoinFrame.spread (Some 2) Examples.frame) = Raise AttributeError
  /\ Pandas.columns (Pandas.cummax (CoinFrame._obj Examples.frame)) = ["price"]
  /\ fst (CoinFrame.max (Some 0) Examples.frame)
     = Ok {| Pandas.index := [0; 1; 2; 3];
             Pandas.data := [("max (n=hist)", [10; 12; 14; 16]%float)] |}
  /\ fst (CoinFrame.spread (Some 0) Examples.frame) = Raise AttributeError.
Proof.
  repeat split; vm_compute; reflexivity.
Qed.

(** No call of [spread] returns a frame: every path through it ends in an
    exception. *)
Lemma spread_never_returns (n : option Z) (s : CoinFrame.CoinFrame) :
  exists x s', CoinFrame.spread n s = (Raise x, s').
Proof.
  unfold CoinFrame.spread. destruct n as [z|].
  - unfold bind, lift, raise.
    destruct (CoinFrame.max (Some z) s) as [[df_max|x] s1]; [|eauto].
    destruct (CoinFrame.min (Some z) s1) as [[df_min|x] s2]; [|eauto].
    destruct (Pandas.getattr "max_hist" df_max) as [mx|x]; [|eauto].
    destruct (Pandas.getattr "min_hist" df_min) as [mn|x]; eauto.
  - unfold raise. eauto.
Qed.

(** ** The live and the back-test update on examples *)

(** C2.  A live [update] never reaches the window.  With an asset to work
    on, it builds a [Msg] from the latest ticker message, and
    [Msg.__init__] ends in the call of [type_convert] with the keyword
    [by_alias], a [TypeError].  So the call raises: [TypeError], or the
    exception the ticker itself raised, or [ValueError] without an asset.
    It leaves the live buffer, the replay queue, the frame and the cached
    values as they were: no entry is evicted and no price is stored. *)
Theorem live_update_raises (asset : option string) (feed : Msg.Ticker)
  (s : CoinFrame.CoinFrame) :
  CoinFrame.is_backtest s = false ->
  CoinFrame.update asset feed s
  = (Raise (match CoinFrame.str_or asset (CoinFrame.asset_id s) with
            | Some a =>
                if String.eqb a "" then ValueError
                else match Msg.ticker_latest feed a with
                     | Ok _ => TypeError
                     | Raise x => x
                     end
            | None => ValueError
            end), s).
Proof.
  intros Hbt. unfold CoinFrame.update, bind, self, lift, raise.
  unfold CoinFrame.str_truthy.
  destruct (CoinFrame.str_or asset (CoinFrame.asset_id s)) as [a|]; [|reflexivity].
  destruct (String.eqb a ""); cbn [negb]; [reflexivity|].
  rewrite Hbt. unfold Msg.__init__.
  destruct (Msg.ticker_latest feed a) as [m|x]; reflexivity.
Qed.

Lemma live_update_raises_witness :
  CoinFrame.update None Examples.ticker_3 Examples.live_frame
  = (Raise TypeError, Examples.live_frame).
Proof.
  apply (@live_update_raises None Examples.ticker_3 Examples.live_frame).
  reflexivity.
Defined.

(** C3, as stated, fails: with live buffer [{0: 10, 1: 12, 2: 14}] and
    replay queue [{3: 16, 4: 18}], the back-test [update] stores the
    replayed price 16 under the replay entry's own timestamp 3; nothing is
    stored under 0, the oldest live timestamp, which it removed. *)
Lemma backtest_update_keeps_replay_timestamp :
  let s := Examples.replay_frame in
  let r := CoinFrame.update None Examples.ticker_9 s in
  Py.min (Dict.keys (CoinFrame._src s)) = Ok 0
  /\ Py.min (Dict.keys (CoinFrame._src_backtest s)) = Ok 3
  /\ Dict.get 3 (CoinFrame._src_backtest s) = Some (Examples.row 16)
  /\ fst r = Ok tt
  /\ Dict.get 0 (CoinFrame._src (snd r)) <> Some (Examples.row 16)
  /\ Dict.get 0 (CoinFrame._src (snd r)) = None
  /\ Dict.get 3 (CoinFrame._src (snd r)) = Some (Examples.row 16)
  /\ CoinFrame._src (snd r)
     = [(1, Examples.row 12); (2, Examples.row 14); (3, Examples.row 16)].
Proof.
  repeat split; try (vm_compute; reflexivity).
  vm_compute. discriminate.
Qed.

(** ** The rule grammar on examples *)

Lemma substring_last_of_two (s : string) :
  (2 <= String.length s)%nat ->
  substring (String.length s - 2) 2 s = "**" ->
  substring (String.length s - 1) 1 s = "*".
Proof.
  induction s as [|c s IH]; intros Hlen H.
  - simpl in Hlen. lia.
  - destruct s as [|d s'].
    + simpl in Hlen. lia.
    + destruct s' as [|e s''].
      * cbn in H. cbn. inversion H. reflexivity.
      * set (r := String d (String e s'')) in *.
        assert (Hr : (2 <= String.length r)%nat) by (subst r; cbn; lia).
        change (String.length (String c r)) with (S (String.length r)) in *.
        replace (S (String.length r) - 2)%nat with (S (String.length r - 2)) in H by lia.
        replace (S (String.length r) - 1)%nat with (S (String.length r - 1)) by lia.
        cbn [substring] in H |- *.
        apply IH; assumption.
Qed.

Lemma endswith_double_star (s : string) :
  Py.endswith s "**" = true -> Py.endswith s "*" = true.
Proof.
  unfold Py.endswith. cbn [String.length].
  intros H. apply andb_true_iff in H. destruct H as [Hlen Heq].
  apply Nat.leb_le in Hlen. apply String.eqb_eq in Heq.
  apply andb_true_iff. split; [apply Nat.leb_le; lia|].
  apply String.eqb_eq. apply substring_last_of_two; assumption.
Qed.

Lemma type_convert_by_alias_raises :
  Alpha.type_convert_by_alias = Raise TypeError.
Proof. reflexivity. Qed.

(** Every path through [Calc.__init__] ends in an exception. *)
Lemma Calc_init_never_returns (float_of_str : string -> option float)
  (dir_object : list string) (self : Calc.Calc) :
  exists e self', Calc.__init__ float_of_str dir_object self = (Raise e, self').
Proof.
  unfold Calc.__init__, bind, Method.self, lift, modify, ret.
  rewrite type_convert_by_alias_raises.
  destruct (if (List.length (Calc.raw self) =? 2)%nat then _ else _) as [p|x];
    [|eauto].
  cbn [Calc.nm Calc.bound Calc.set_nm_bound].
  destruct (Py.endswith (fst p) "*").
  - destruct (Number.Float float_of_str (Some (snd p))) as [b|x]; [|eauto].
    destruct (Number.__mul__ float_of_str b 60) as [b60|x]; eauto.
  - destruct (Py.endswith (fst p) "**"); [|eauto].
    destruct (Number.Float float_of_str (Some (snd p))) as [b|x]; [|eauto].
    destruct (Number.__mul__ float_of_str b 60) as [b60|x]; eauto.
Qed.

Lemma Calc_new_never_returns (float_of_str : string -> option float)
  (dir_object : list string) (raw : list string) :
  exists e, Calc.new float_of_str dir_object raw = Raise e.
Proof.
  unfold Calc.new.
  destruct (Calc_init_never_returns float_of_str dir_object (Calc.fresh raw))
    as (e & self' & ->).
  eauto.
Qed.

(** C5.  No [Calc] is built: [__init__] ends in the call of [type_convert]
    with the keyword [by_alias], which it does not declare, and every path
    through it raises.  On [["spread**"]] and on [["price-last**", "2"]] that
    [TypeError] finds the name with one star left, ["spread*"] and
    ["price-last*"] (the bounds are [-1 * 60] and 120): the first test,
    [endswith('*')], holds for both markers, so the branch that strips two
    characters is never taken.  On [["dema*", "2"]] it finds the name
    ["dema"] and the bound 120. *)
Theorem Calc_is_never_built (float_of_str : string -> option float)
  (dir_object : list string) :
  (forall self, exists e self',
      Calc.__init__ float_of_str dir_object self = (Raise e, self'))
  /\ (forall raw, exists e, Calc.new float_of_str dir_object raw = Raise e)
  /\ (let r := Calc.__init__ float_of_str dir_object (Calc.fresh ["spread**"]) in
      fst r = Raise TypeError
      /\ Calc.nm (snd r) = "spread*"
      /\ Calc.bound (snd r) = VFloat (-60))
  /\ (let r := Calc.__init__ Examples.decimal_literal dir_object
                 (Calc.fresh ["price-last**"; "2"]) in
      fst r = Raise TypeError
      /\ Calc.nm (snd r) = "price-last*"
      /\ Calc.bound (snd r) = VFloat 120)
  /\ (let r := Calc.__init__ Examples.decimal_literal dir_object
                 (Calc.fresh ["dema*"; "2"]) in
      fst r = Raise TypeError
      /\ Calc.nm (snd r) = "dema"
      /\ Calc.bound (snd r) = VFloat 120)
  /\ (forall s, Py.endswith s "**" = true -> Py.endswith s "*" = true).
Proof.
  split; [apply Calc_init_never_returns|].
  split; [apply Calc_new_never_returns|].
  split; [repeat split; vm_compute; reflexivity|].
  split; [repeat split; vm_compute; reflexivity|].
  split; [repeat split; vm_compute; reflexivity|].
  exact endswith_double_star.
Qed.

(** ** Dictionaries *)

Section DictFacts.
Context {K V : Type} `{Key K}.
Implicit Types (d : Dict.dict K V) (k : K) (v : V).

Lemma key_eqb_refl k : key_eqb k k = true.
Proof. destruct (key_eqb_spec k k); congruence. Qed.

Lemma key_eqb_neq k k' : k <> k' -> key_eqb k k' = false.
Proof. intros Hne. destruct (key_eqb_spec k k'); congruence. Qed.

Lemma get_not_key k d :
  existsb (key_eqb k) (Dict.keys d) = false -> Dict.get k d = None.
Proof.
  induction d as [|[k' v'] d IH]; cbn; [reflexivity|].
  intros Hk. apply orb_false_iff in Hk. destruct Hk as [Hk Hd].
  destruct (key_eqb_spec k' k) as [->|Hne].
  - rewrite key_eqb_refl in Hk. discriminate.
  - auto.
Qed.

Lemma get_key k d :
  In k (Dict.keys d) -> exists v, Dict.get k d = Some v.
Proof.
  induction d as [|[k' v'] d IH]; cbn; [tauto|].
  intros [->|Hin].
  - rewrite key_eqb_refl. eauto.
  - destruct (key_eqb k' k); eauto.
Qed.

Lemma get_remove_same k d :
  Dict.unique d = true -> Dict.get k (Dict.remove k d) = None.
Proof.
  induction d as [|[k' v'] d IH]; cbn; [reflexivity|].
  intros Hu. apply andb_true_iff in Hu. destruct Hu as [Hk Hd].
  destruct (key_eqb_spec k' k) as [->|Hne].
  - apply get_not_key. now apply negb_true_iff.
  - cbn. rewrite (key_eqb_neq Hne). auto.
Qed.

Lemma get_remove_other k k' d :
  k <> k' -> Dict.get k' (Dict.remove k d) = Dict.get k' d.
Proof.
  intros Hne. induction d as [|[k0 v0] d IH]; cbn; [reflexivity|].
  destruct (key_eqb_spec k0 k) as [->|Hk].
  - now rewrite (key_eqb_neq Hne).
  - cbn. now rewrite IH.
Qed.

Lemma get_setitem_same k v d : Dict.get k (Dict.setitem k v d) = Some v.
Proof.
  induction d as [|[k0 v0] d IH]; cbn.
  - now rewrite key_eqb_refl.
  - destruct (key_eqb_spec k0 k) as [->|Hk]; cbn.
    + now rewrite key_eqb_refl.
    + now rewrite (key_eqb_neq Hk).
Qed.

Lemma get_setitem_other k k' v d :
  k <> k' -> Dict.get k' (Dict.setitem k v d) = Dict.get k' d.
Proof.
  intros Hne. induction d as [|[k0 v0] d IH]; cbn.
  - now rewrite (key_eqb_neq Hne).
  - destruct (key_eqb_spec k0 k) as [->|Hk]; cbn.
    + now rewrite (key_eqb_neq Hne).
    + now rewrite IH.
Qed.

Lemma length_remove k v d :
  Dict.get k d = Some v -> S (List.length (Dict.remove k d)) = List.length d.
Proof.
  induction d as [|[k0 v0] d IH]; cbn; [discriminate|].
  destruct (key_eqb k0 k); cbn; auto.
Qed.

Lemma nonempty_length d : Dict.nonempty d = true <-> (1 <= List.length d)%nat.
Proof. destruct d; cbn; split; intros; try lia; try discriminate; reflexivity. Qed.

End DictFacts.

Lemma fold_min_In (xs : list Z) (x : Z) : In (fold_left Z.min xs x) (x :: xs).
Proof.
  revert x. induction xs as [|y xs IH]; intros x; cbn; [auto|].
  destruct (IH (Z.min x y)) as [Hm|Hm].
  - destruct (Z.min_spec x y) as [[_ Hxy]|[_ Hxy]];
      [left|right; left]; congruence.
  - right. right. exact Hm.
Qed.

Lemma min_In (xs : list Z) (m : Z) : Py.min xs = Ok m -> In m xs.
Proof.
  destruct xs as [|x xs]; cbn; [discriminate|].
  intros Hm. injection Hm as <-. apply fold_min_In.
Qed.

(** ** The buffers of a [CoinFrame] *)

Section CoinFrameFacts.
Import CoinFrame.

Lemma src_run (backtest : bool) (s : CoinFrame) :
  src false backtest s
  = (Ok (if negb backtest then live s else _src_backtest s), set_src (live s) s).
Proof.
  unfold src, live, bind, self, modify, ret.
  rewrite orb_false_r.
  destruct s as [a i0 e0 c o sr bt q n0]; cbn.
  destruct sr as [|p sr]; cbn; destruct backtest; reflexivity.
Qed.

Lemma live_set_src (d : Dict.dict Z Pandas.row) (s : CoinFrame) :
  Dict.nonempty d = true -> live (set_src d s) = d.
Proof. intros Hd. unfold live. cbn. now rewrite Hd. Qed.

Lemma live_reloaded (s : CoinFrame) : live (set_src (live s) s) = live s.
Proof.
  unfold live. cbn.
  destruct (Dict.nonempty (_src s)) eqn:Hs.
  - now rewrite Hs.
  - now destruct (Dict.nonempty (Pandas.to_dict_index (_obj s))).
Qed.

Lemma first_run (backtest : bool) (s : CoinFrame) :
  first backtest s
  = (Py.min (Dict.keys (if negb backtest then live s else _src_backtest s)),
     set_src (live s) s).
Proof. unfold first, bind, lift. now rewrite src_run. Qed.

Lemma first_set_src (backtest : bool) (d : Dict.dict Z Pandas.row) (s : CoinFrame) :
  Dict.nonempty d = true ->
  first backtest (set_src d s)
  = (Py.min (Dict.keys (if negb backtest then d else _src_backtest s)), set_src d s).
Proof.
  intros Hd. rewrite first_run. now rewrite live_set_src.
Qed.

Lemma last_run (backtest : bool) (s : CoinFrame) :
  last backtest s
  = (Py.max (Dict.keys (if negb backtest then live s else _src_backtest s)),
     set_src (live s) s).
Proof. unfold last, bind, lift. now rewrite src_run. Qed.

End CoinFrameFacts.

(** C8.  A back-test update on an empty replay queue raises
    [BackTestCompletedError] and updates nothing: the live buffer, the
    replay queue, the frame and the cached values are the ones before the
    call (an empty [_src] has been loaded with the rows of the frame, the
    live buffer it stood for).  This is the outcome of [_update_backtest],
    and of every [update] that has an asset to work on. *)
Theorem backtest_update_on_empty_queue (s : CoinFrame.CoinFrame) :
  CoinFrame.is_backtest s = true ->
  CoinFrame._src_backtest s = [] ->
  exists s',
    CoinFrame._update_backtest s = (Raise BackTestCompletedError, s')
    /\ (forall asset feed,
           CoinFrame.str_truthy (CoinFrame.str_or asset (CoinFrame.asset_id s)) = true ->
           CoinFrame.update asset feed s = (Raise BackTestCompletedError, s'))
    /\ CoinFrame.live s' = CoinFrame.live s
    /\ (Dict.nonempty (CoinFrame._src s) = true -> CoinFrame._src s' = CoinFrame._src s)
    /\ CoinFrame._src_backtest s' = CoinFrame._src_backtest s
    /\ CoinFrame._obj s' = CoinFrame._obj s
    /\ CoinFrame.calcs s' = CoinFrame.calcs s.
Proof.
  intros Hbt Hq.
  exists (CoinFrame.set_src (CoinFrame.live s) s).
  assert (Hrun : CoinFrame._update_backtest s
                 = (Raise BackTestCompletedError, CoinFrame.set_src (CoinFrame.live s) s)).
  { unfold CoinFrame._update_backtest, except_ValueError, bind.
    rewrite first_run. cbn [negb]. rewrite Hq. reflexivity. }
  split; [exact Hrun|split].
  - intros asset feed Hasset.
    unfold CoinFrame.update, bind, self. rewrite Hasset, Hbt. cbn [negb].
    exact Hrun.
  - split; [apply live_reloaded|].
    split; [|repeat split].
    intros Hne. unfold CoinFrame.live. rewrite Hne. reflexivity.
Qed.

Lemma backtest_update_on_empty_queue_witness :
  exists s',
    CoinFrame._update_backtest Examples.exhausted_frame
    = (Raise BackTestCompletedError, s')
    /\ (forall asset feed,
           CoinFrame.str_truthy
             (CoinFrame.str_or asset (CoinFrame.asset_id Examples.exhausted_frame))
           = true ->
           CoinFrame.update asset feed Examples.exhausted_frame
           = (Raise BackTestCompletedError, s'))
    /\ CoinFrame.live s' = CoinFrame.live Examples.exhausted_frame
    /\ (Dict.nonempty (CoinFrame._src Examples.exhausted_frame) = true ->
        CoinFrame._src s' = CoinFrame._src Examples.exhausted_frame)
    /\ CoinFrame._src_backtest s' = CoinFrame._src_backtest Examples.exhausted_frame
    /\ CoinFrame._obj s' = CoinFrame._obj Examples.exhausted_frame
    /\ CoinFrame.calcs s' = CoinFrame.calcs Examples.exhausted_frame.
Proof.
  apply (backtest_update_on_empty_queue Examples.exhausted_frame); reflexivity.
Defined.

Section BacktestStep.
Import CoinFrame.

Lemma pop_src_run (k : Z) (v : Pandas.row) (d : Dict.dict Z Pandas.row)
  (s : CoinFrame) :
  Dict.get k d = Some v ->
  pop_src k (set_src d s) = (Ok v, set_src (Dict.remove k d) s).
Proof.
  intros Hk. change (set_src (Dict.remove k d) s)
    with (set_src (Dict.remove k (_src (set_src d s))) (set_src d s)).
  change d with (_src (set_src d s)) in Hk. revert Hk.
  generalize (set_src d s). clear s. intros s Hk. unfold pop_src, bind, self, lift, modify, ret, Dict.pop.
  now rewrite Hk.
Qed.

Lemma pop_src_backtest_run (k : Z) (v : Pandas.row) (q : Dict.dict Z Pandas.row)
  (s : CoinFrame) :
  Dict.get k q = Some v ->
  pop_src_backtest k (set_src_backtest q s)
  = (Ok v, set_src_backtest (Dict.remove k q) s).
Proof.
  intros Hk. change (set_src_backtest (Dict.remove k q) s)
    with (set_src_backtest (Dict.remove k (_src_backtest (set_src_backtest q s)))
            (set_src_backtest q s)).
  change q with (_src_backtest (set_src_backtest q s)) in Hk. revert Hk.
  generalize (set_src_backtest q s). clear s. intros s Hk. unfold pop_src_backtest, bind, self, lift, modify, ret, Dict.pop.
  now rewrite Hk.
Qed.

Lemma from_dict_run (s : CoinFrame) :
  from_dict None s = (Ok tt, set_obj (Pandas.from_dict_index (_src s)) s).
Proof. reflexivity. Qed.

End BacktestStep.

(** C3, amended.  In back-test mode, with a replay queue that is not empty
    and a live buffer of at least two entries, [update] returns and has
    removed the oldest timestamp from the live buffer, removed the oldest
    pair from the replay queue, and stored that pair's price in the live
    buffer under the pair's own timestamp [next]; every other entry of
    both buffers is kept, and the frame is rebuilt from the live
    buffer. *)
Theorem backtest_update_replays_next (s : CoinFrame.CoinFrame) (oldest next : Z) :
  CoinFrame.is_backtest s = true ->
  Dict.unique (CoinFrame.live s) = true ->
  Dict.unique (CoinFrame._src_backtest s) = true ->
  (2 <= List.length (CoinFrame.live s))%nat ->
  Py.min (Dict.keys (CoinFrame.live s)) = Ok oldest ->
  Py.min (Dict.keys (CoinFrame._src_backtest s)) = Ok next ->
  exists price s',
    Dict.get next (CoinFrame._src_backtest s) = Some price
    /\ CoinFrame._update_backtest s = (Ok tt, s')
    /\ (forall asset feed,
           CoinFrame.str_truthy (CoinFrame.str_or asset (CoinFrame.asset_id s)) = true ->
           CoinFrame.update asset feed s = (Ok tt, s'))
    /\ CoinFrame._src s'
       = Dict.setitem next price (Dict.remove oldest (CoinFrame.live s))
    /\ CoinFrame._src_backtest s' = Dict.remove next (CoinFrame._src_backtest s)
    /\ Dict.get next (CoinFrame._src s') = Some price
    /\ (oldest <> next -> Dict.get oldest (CoinFrame._src s') = None)
    /\ (forall k, k <> oldest -> k <> next ->
                  Dict.get k (CoinFrame._src s') = Dict.get k (CoinFrame.live s))
    /\ Dict.get next (CoinFrame._src_backtest s') = None
    /\ (forall k, k <> next ->
                  Dict.get k (CoinFrame._src_backtest s')
                  = Dict.get k (CoinFrame._src_backtest s))
    /\ CoinFrame._obj s' = Pandas.from_dict_index (CoinFrame._src s').
Proof.
  intros Hbt Hul Huq Hlen Hold Hnext.
  destruct (get_key _ _ (min_In _ Hold)) as [row0 Hrow0].
  destruct (get_key _ _ (min_In _ Hnext)) as [price Hprice].
  set (L := CoinFrame.live s) in *.
  set (Q := CoinFrame._src_backtest s) in *.
  assert (Hrest : Dict.nonempty (Dict.remove oldest L) = true).
  { apply nonempty_length. pose proof (length_remove _ _ Hrow0). lia. }
  assert (HL : Dict.nonempty L = true) by (apply nonempty_length; lia).
  set (L' := Dict.setitem next price (Dict.remove oldest L)).
  set (s' := CoinFrame.set_obj (Pandas.from_dict_index L')
               (CoinFrame.set_src L'
                  (CoinFrame.set_src_backtest (Dict.remove next Q) s))).
  assert (Hrun : CoinFrame._update_backtest s = (Ok tt, s')).
  { unfold CoinFrame._update_backtest, except_ValueError, bind.
    rewrite first_run. cbn [negb]. fold Q L. rewrite Hnext.
    rewrite first_set_src by exact HL. cbn [negb]. rewrite Hold.
    rewrite (@pop_src_run oldest row0) by exact Hrow0.
    rewrite first_set_src by exact Hrest. cbn [negb]. fold Q. rewrite Hnext.
    change (CoinFrame.set_src (Dict.remove oldest L) s)
      with (CoinFrame.set_src_backtest Q (CoinFrame.set_src (Dict.remove oldest L) s)).
    rewrite (@pop_src_backtest_run next price) by exact Hprice.
    unfold modify. rewrite from_dict_run.
    reflexivity. }
  exists price, s'.
  split; [exact Hprice|]. split; [exact Hrun|]. split.
  - intros asset feed Hasset.
    unfold CoinFrame.update, bind, self. rewrite Hasset, Hbt. cbn [negb].
    exact Hrun.
  - subst s' L'. cbn [CoinFrame._src CoinFrame._src_backtest CoinFrame._obj
                       CoinFrame.set_obj CoinFrame.set_src CoinFrame.set_src_backtest].
    repeat split.
    + apply get_setitem_same.
    + intros Hne. rewrite get_setitem_other by congruence.
      now apply get_remove_same.
    + intros k Hk1 Hk2. rewrite get_setitem_other by congruence.
      now apply get_remove_other.
    + now apply get_remove_same.
    + intros k Hk. now apply get_remove_other.
Qed.

Lemma fold_max_In (xs : list Z) (x : Z) : In (fold_left Z.max xs x) (x :: xs).
Proof.
  revert x. induction xs as [|y xs IH]; intros x; cbn; [auto|].
  destruct (IH (Z.max x y)) as [Hm|Hm].
  - destruct (Z.max_spec x y) as [[_ Hxy]|[_ Hxy]];
      [right; left|left]; congruence.
  - right. right. exact Hm.
Qed.

Lemma max_In (xs : list Z) (m : Z) : Py.max xs = Ok m -> In m xs.
Proof.
  destruct xs as [|x xs]; cbn; [discriminate|].
  intros Hm. injection Hm as <-. apply fold_max_In.
Qed.

(** ** Conditions *)

(** C7.  A condition one of whose calcs is named ["price-last"] and has a
    zero (unset) value is true, whatever its operator, its threshold and
    its other calc; its [actual] is then [Float()]. *)
Theorem condition_cold_start_is_true (float_of_str : string -> option float)
  (cond : Condition.Condition) (c : Calc.Calc) :
  In c (Dict.values (Condition.calcs cond)) ->
  Calc.nm c = "price-last" ->
  Py.float_bool (Calc.val c) = false ->
  Condition.__bool__ float_of_str cond = Ok true
  /\ Condition.actual float_of_str cond = Ok 0%float.
Proof.
  intros Hin Hnm Hval.
  assert (Hu : Condition.unset_price_last cond = true).
  { unfold Condition.unset_price_last. apply existsb_exists.
    exists c. split; [exact Hin|].
    rewrite Hnm. unfold Calc.__bool__. rewrite Hval. reflexivity. }
  unfold Condition.__bool__, Condition.actual. rewrite Hu.
  split; reflexivity.
Qed.

Lemma condition_cold_start_is_true_witness :
  Condition.__bool__ Examples.decimal_literal Examples.cold_condition = Ok true
  /\ Condition.actual Examples.decimal_literal Examples.cold_condition = Ok 0%float.
Proof.
  apply (condition_cold_start_is_true Examples.decimal_literal
           Examples.cold_condition Examples.price_last).
  - simpl. left. reflexivity.
  - reflexivity.
  - reflexivity.
Defined.

(** Every path through [Condition.__init__] ends in an exception: the
    first [Calc] it builds raises, before anything is set. *)
Lemma Condition_init_never_returns (float_of_str : string -> option float)
  (dir_object : list string) (self : Condition.Condition) :
  exists e, Condition.__init__ float_of_str dir_object self = (Raise e, self).
Proof.
  unfold Condition.__init__, bind, Method.self, lift.
  destruct (Py.getitem (Condition.raw self) 0) as [r0|x]; [|eauto].
  destruct (Calc_new_never_returns float_of_str dir_object r0) as [e ->].
  eauto.
Qed.

(** C6.  No [Condition] is built, so no threshold token selects an
    operator: [__init__] starts by building its two calcs, and the first
    [Calc] raises before the token is read; on the token lists
    [[["price-last"], ["dema", "30"], [tok]]] of the specification this is a
    [TypeError], whatever the threshold token, and the object is still the
    one [super().__init__] left.  On a condition that does exist,
    [__bool__] compares as the attributes [gt] and [eq] say: [actual]
    greater than the threshold with [gt], equal to it with [eq], less
    than it otherwise (the cold-start case apart). *)
Theorem Condition_is_never_built (float_of_str : string -> option float)
  (dir_object : list string) :
  (forall self, exists e,
      Condition.__init__ float_of_str dir_object self = (Raise e, self))
  /\ (forall raw mode, exists e,
        Condition.new float_of_str dir_object raw mode = Raise e)
  /\ (forall tok mode,
        Condition.__init__ float_of_str dir_object
          (Condition.fresh [["price-last"]; ["dema"; "30"]; [tok]] mode)
        = (Raise TypeError,
           Condition.fresh [["price-last"]; ["dema"; "30"]; [tok]] mode))
  /\ (forall tok mode,
        Condition.new float_of_str dir_object
          [["price-last"]; ["dema"; "30"]; [tok]] mode = Raise TypeError)
  /\ (forall cond,
        Condition.__bool__ float_of_str cond
        = if Condition.unset_price_last cond then Ok true
          else let? a := Condition.actual float_of_str cond in
               Ok (if Condition.gt cond then PrimFloat.ltb (Condition.t cond) a
                   else if Condition.eq cond then PrimFloat.eqb a (Condition.t cond)
                   else PrimFloat.ltb a (Condition.t cond))).
Proof.
  split; [apply Condition_init_never_returns|].
  split.
  { intros raw mode. unfold Condition.new.
    destruct (Condition_init_never_returns float_of_str dir_object
                (Condition.fresh raw mode)) as [e ->].
    eauto. }
  assert (Hrun : forall tok mode,
             Condition.__init__ float_of_str dir_object
               (Condition.fresh [["price-last"]; ["dema"; "30"]; [tok]] mode)
             = (Raise TypeError,
                Condition.fresh [["price-last"]; ["dema"; "30"]; [tok]] mode)).
  { intros tok mode. vm_compute. reflexivity. }
  split; [exact Hrun|].
  split; [intros tok mode; unfold Condition.new; now rewrite Hrun|].
  intros cond. unfold Condition.__bool__.
  destruct (Condition.unset_price_last cond); [reflexivity|].
  destruct (Condition.gt cond); [reflexivity|].
  destruct (Condition.eq cond); reflexivity.
Qed.

(** ** The mock order book *)

Section OrderBookFacts.
Variable float_of_str : string -> option float.
Variable md5_hash : string -> string.
Import OrderBook.

Lemma sell_run (price : float) (tm : Z) (s : OrderBook) :
  _sell float_of_str md5_hash price tm s
  = (Raise (if Py.float_bool (usd s + amt s * price)
            then TypeError else AssertionError), s).
Proof.
  unfold _sell, bind, self, lift, assert, ret, raise. cbv beta iota.
  rewrite (Float_mul float_of_str (amt s) price).
  rewrite (Float_add float_of_str (usd s) (amt s * price)).
  destruct (Py.float_bool (usd s + amt s * price)); reflexivity.
Qed.

Lemma buy_run (price : float) (tm : Z) (s : OrderBook) :
  _buy float_of_str md5_hash price tm s
  = (Raise (if PrimFloat.eqb price 0 then ZeroDivisionError
            else if PrimFloat.eqb (amt s + usd s / price) 0 then AssertionError
            else TypeError), s).
Proof.
  unfold _buy, bind, self, lift, assert, ret, raise. cbv beta iota.
  destruct (PrimFloat.eqb price 0) eqn:Hp.
  { unfold Number.__truediv__, Py.float_truediv. rewrite Hp. reflexivity. }
  rewrite (@Float_truediv float_of_str (usd s) price Hp).
  rewrite (Float_add float_of_str (amt s) (usd s / price)).
  destruct (PrimFloat.eqb (amt s + usd s / price) 0); reflexivity.
Qed.

(** Every call of [order] raises in [_sell] or [_buy], before the book is
    touched. *)
Lemma order_run (mode : string) (price : float) (tm : Z) (s : OrderBook) :
  order float_of_str md5_hash mode price tm s
  = (Raise (if String.eqb mode "sell"
            then (if Py.float_bool (usd s + amt s * price)
                  then TypeError else AssertionError)
            else if PrimFloat.eqb price 0 then ZeroDivisionError
            else if PrimFloat.eqb (amt s + usd s / price) 0 then AssertionError
            else TypeError), s).
Proof.
  unfold order, bind.
  destruct (String.eqb mode "sell").
  - now rewrite sell_run.
  - now rewrite buy_run.
Qed.

End OrderBookFacts.

(** C9.  No call of [order] returns, so no balance ever moves.  [_sell]
    and [_buy] end in [Order(...)], whose [__init__] ends in the call of
    [type_convert] with the keyword [by_alias]: a call of [order] raises
    [TypeError] (or, before that, [ZeroDivisionError] for a buy at price
    zero, [AssertionError] when the receiving balance would be zero) and
    leaves the book as it was.  The only book reached from a book by
    returning calls is that book itself, which is one-sided when it was
    so at the start; a buy at 100 on a book holding 1000 of currency, and
    a sell at 110 on a book holding 10 of the asset, raise [TypeError]. *)
Theorem order_never_returns (float_of_str : string -> option float)
  (md5_hash : string -> string) :
  (forall mode price tm s,
      OrderBook.order float_of_str md5_hash mode price tm s
      = (Raise (if String.eqb mode "sell"
                then (if Py.float_bool (OrderBook.usd s + OrderBook.amt s * price)
                      then TypeError else AssertionError)
                else if PrimFloat.eqb price 0 then ZeroDivisionError
                else if PrimFloat.eqb (OrderBook.amt s + OrderBook.usd s / price) 0
                then AssertionError
                else TypeError), s))
  /\ (forall s0 s, OrderBook.reachable float_of_str md5_hash s0 s -> s = s0)
  /\ (forall s0 s,
        OrderBook.one_sided s0 = true ->
        OrderBook.reachable float_of_str md5_hash s0 s ->
        OrderBook.one_sided s = true)
  /\ OrderBook.order float_of_str md5_hash "buy" 100 1 Examples.book
     = (Raise TypeError, Examples.book)
  /\ OrderBook.order float_of_str md5_hash "sell" 110 2 Examples.book_after_buy
     = (Raise TypeError, Examples.book_after_buy).
Proof.
  split; [apply order_run|].
  assert (Hreach : forall s0 s,
             OrderBook.reachable float_of_str md5_hash s0 s -> s = s0).
  { intros s0 s Hreach.
    induction Hreach as [|s1 s2 mode price tm o _ _ _ Hcall]; [reflexivity|].
    rewrite order_run in Hcall. discriminate. }
  split; [exact Hreach|]. split.
  - intros s0 s Hone Hr. now rewrite (Hreach _ _ Hr).
  - split; rewrite order_run; reflexivity.
Qed.

Lemma backtest_update_replays_next_witness :
  exists price s',
    Dict.get 3 (CoinFrame._src_backtest Examples.replay_frame) = Some price
    /\ CoinFrame._update_backtest Examples.replay_frame = (Ok tt, s')
    /\ (forall asset feed,
           CoinFrame.str_truthy
             (CoinFrame.str_or asset (CoinFrame.asset_id Examples.replay_frame))
           = true ->
           CoinFrame.update asset feed Examples.replay_frame = (Ok tt, s'))
    /\ CoinFrame._src s'
       = Dict.setitem 3 price (Dict.remove 0 (CoinFrame.live Examples.replay_frame))
    /\ CoinFrame._src_backtest s'
       = Dict.remove 3 (CoinFrame._src_backtest Examples.replay_frame)
    /\ Dict.get 3 (CoinFrame._src s') = Some price
    /\ (0 <> 3 -> Dict.get 0 (CoinFrame._src s') = None)
    /\ (forall k, k <> 0 -> k <> 3 ->
                  Dict.get k (CoinFrame._src s')
                  = Dict.get k (CoinFrame.live Examples.replay_frame))
    /\ Dict.get 3 (CoinFrame._src_backtest s') = None
    /\ (forall k, k <> 3 ->
                  Dict.get k (CoinFrame._src_backtest s')
                  = Dict.get k (CoinFrame._src_backtest Examples.replay_frame))
    /\ CoinFrame._obj s' = Pandas.from_dict_index (CoinFrame._src s').
Proof.
  apply (@backtest_update_replays_next Examples.replay_frame 0 3);
    try reflexivity.
  simpl. lia.
Defined.

(** A live buffer of one entry is not covered by the step above: once its
    entry is popped, [_src] is empty and the next call of [src] reloads it
    from the frame, so the entry comes back and the buffer grows. *)
Fact backtest_update_single_entry :
  let s := CoinFrame.set_src_backtest [(3, Examples.row 16)]
             (CoinFrame.__init__ (Pandas.from_dict_index [(0, Examples.row 10)])
                None None None (Some "BTC-USD") true) in
  let r := CoinFrame.update None Examples.ticker_9 s in
  fst r = Ok tt
  /\ CoinFrame._src (snd r) = [(0, Examples.row 10); (3, Examples.row 16)].
Proof. split; vm_compute; reflexivity. Qed.

(** ** Binary64 facts used below *)

Lemma add_nan_r (x : float) : (x + nan)%float = nan.
Proof.
  apply Prim2SF_inj. rewrite add_spec.
  change (Prim2SF nan) with S754_nan.
  unfold SF64add, SFadd. now destruct (Prim2SF x).
Qed.

Lemma mul_nan_l (x : float) : (nan * x)%float = nan.
Proof.
  apply Prim2SF_inj. rewrite mul_spec.
  change (Prim2SF nan) with S754_nan. reflexivity.
Qed.

Lemma mul_nan_r (x : float) : (x * nan)%float = nan.
Proof.
  apply Prim2SF_inj. rewrite mul_spec.
  change (Prim2SF nan) with S754_nan.
  unfold SF64mul, SFmul. now destruct (Prim2SF x).
Qed.

Lemma sub_nan_r (x : float) : (x - nan)%float = nan.
Proof.
  apply Prim2SF_inj. rewrite sub_spec.
  change (Prim2SF nan) with S754_nan.
  unfold SF64sub, SFsub. now destruct (Prim2SF x).
Qed.

Lemma sub_nan_l (x : float) : (nan - x)%float = nan.
Proof.
  apply Prim2SF_inj. rewrite sub_spec.
  change (Prim2SF nan) with S754_nan. reflexivity.
Qed.

(** ** More on dictionaries *)

Section DictMore.
Context {K V : Type} `{Key K}.
Implicit Types (d : Dict.dict K V) (k : K) (v : V).

Lemma get_None_not_key k d :
  Dict.get k d = None -> existsb (key_eqb k) (Dict.keys d) = false.
Proof.
  induction d as [|[k' v'] d IH]; cbn; [reflexivity|].
  destruct (key_eqb_spec k' k) as [->|Hne]; [discriminate|].
  intros Hg. apply orb_false_iff. split; [|exact (IH Hg)].
  destruct (key_eqb_spec k k'); congruence.
Qed.

Lemma keys_remove_subset k k' d :
  existsb (key_eqb k') (Dict.keys d) = false ->
  existsb (key_eqb k') (Dict.keys (Dict.remove k d)) = false.
Proof.
  induction d as [|[k0 v0] d IH]; cbn; [reflexivity|].
  intros Hk. apply orb_false_iff in Hk. destruct Hk as [Hk Hd].
  destruct (key_eqb k0 k); cbn; [exact Hd|].
  rewrite Hk. cbn. auto.
Qed.

Lemma unique_remove k d : Dict.unique d = true -> Dict.unique (Dict.remove k d) = true.
Proof.
  induction d as [|[k0 v0] d IH]; cbn; [reflexivity|].
  intros Hu. apply andb_true_iff in Hu. destruct Hu as [Hk Hd].
  destruct (key_eqb k0 k); cbn; [exact Hd|].
  apply andb_true_iff. split; [|auto].
  apply negb_true_iff. apply keys_remove_subset. now apply negb_true_iff.
Qed.

Lemma keys_setitem_other k k' v d :
  k <> k' ->
  existsb (key_eqb k') (Dict.keys (Dict.setitem k v d))
  = existsb (key_eqb k') (Dict.keys d).
Proof.
  intros Hne. unfold Dict.keys. induction d as [|[k0 v0] d IH]; cbn.
  - destruct (key_eqb_spec k' k); [congruence|reflexivity].
  - destruct (key_eqb_spec k0 k) as [->|Hk]; cbn.
    + destruct (key_eqb_spec k' k); [congruence|reflexivity].
    + now rewrite IH.
Qed.

Lemma unique_setitem k v d : Dict.unique d = true -> Dict.unique (Dict.setitem k v d) = true.
Proof.
  induction d as [|[k0 v0] d IH]; cbn; [reflexivity|].
  intros Hu. apply andb_true_iff in Hu. destruct Hu as [Hk Hd].
  destruct (key_eqb_spec k0 k) as [->|Hne]; cbn.
  - now rewrite Hk, Hd.
  - apply andb_true_iff. split; [|auto].
    apply negb_true_iff.
    change (existsb (key_eqb k0) (Dict.keys (Dict.setitem k v d)) = false).
    rewrite (@keys_setitem_other k k0 v d) by congruence.
    now apply negb_true_iff.
Qed.

Lemma length_setitem_new k v d :
  Dict.get k d = None -> List.length (Dict.setitem k v d) = S (List.length d).
Proof.
  induction d as [|[k0 v0] d IH]; cbn; [reflexivity|].
  destruct (key_eqb k0 k); [discriminate|]. cbn. auto.
Qed.

Lemma length_setitem_old k v v' d :
  Dict.get k d = Some v' -> List.length (Dict.setitem k v d) = List.length d.
Proof.
  induction d as [|[k0 v0] d IH]; cbn; [discriminate|].
  destruct (key_eqb k0 k); cbn; auto.
Qed.

Lemma get_Some_key k v d : Dict.get k d = Some v -> In k (Dict.keys d).
Proof.
  induction d as [|[k0 v0] d IH]; cbn; [discriminate|].
  destruct (key_eqb_spec k0 k) as [->|Hne]; auto.
Qed.

End DictMore.

Lemma fold_max_ge (xs : list Z) (x y : Z) :
  In y (x :: xs) -> y <= fold_left Z.max xs x.
Proof.
  revert x y. induction xs as [|z xs IH]; intros x y; cbn.
  - intros [->|[]]. lia.
  - intros [Hx|[Hz|Hin]].
    + subst. transitivity (Z.max y z); [lia|apply IH; left; reflexivity].
    + subst. transitivity (Z.max x y); [lia|apply IH; left; reflexivity].
    + apply IH. right. exact Hin.
Qed.

Lemma max_ge (xs : list Z) (m y : Z) : Py.max xs = Ok m -> In y xs -> y <= m.
Proof.
  destruct xs as [|x xs]; cbn; [discriminate|].
  intros Hm Hin. injection Hm as <-. now apply fold_max_ge.
Qed.

Lemma fold_min_le (xs : list Z) (x y : Z) :
  In y (x :: xs) -> fold_left Z.min xs x <= y.
Proof.
  revert x y. induction xs as [|z xs IH]; intros x y; cbn.
  - intros [->|[]]. lia.
  - intros [Hx|[Hz|Hin]].
    + subst. transitivity (Z.min y z); [apply IH; left; reflexivity|lia].
    + subst. transitivity (Z.min x y); [apply IH; left; reflexivity|lia].
    + apply IH. right. exact Hin.
Qed.

Lemma min_le (xs : list Z) (m y : Z) : Py.min xs = Ok m -> In y xs -> m <= y.
Proof.
  destruct xs as [|x xs]; cbn; [discriminate|].
  intros Hm Hin. injection Hm as <-. now apply fold_min_le.
Qed.

(** ** The statements of the live update that follow the feed *)

(** The state [update_window] leaves. *)
Lemma update_window_state (tmstmp : Z) (price : Pandas.row)
  (s : CoinFrame.CoinFrame) (newest : Z) :
  Py.max (Dict.keys (CoinFrame.live s)) = Ok newest ->
  let d := Dict.setitem tmstmp price
             (if tmstmp - newest >? 0
              then Dict.remove newest (CoinFrame.live s)
              else CoinFrame.live s) in
  CoinFrame.update_window (tmstmp, price) s
  = (Ok tt, CoinFrame.set_obj (Pandas.from_dict_index d) (CoinFrame.set_src d s)).
Proof.
  intros Hmax d. subst d.
  destruct (get_key _ _ (max_In _ Hmax)) as [row0 Hrow0].
  assert (HL : Dict.nonempty (CoinFrame.live s) = true).
  { destruct (CoinFrame.live s); [discriminate|reflexivity]. }
  unfold CoinFrame.update_window, bind. cbn [fst snd].
  rewrite last_run. cbn [negb]. rewrite Hmax.
  destruct (tmstmp - newest >? 0).
  - unfold bind. rewrite last_run. cbn [negb].
    rewrite live_set_src by exact HL. rewrite Hmax.
    rewrite (@pop_src_run newest row0) by exact Hrow0.
    unfold ret, modify. rewrite from_dict_run. reflexivity.
  - unfold ret, modify. rewrite from_dict_run. reflexivity.
Qed.

(** X1.  The statements of [update] that follow the reading of the feed
    (no call reaches them), run on a pair whose timestamp is strictly
    newer than every key of the window: they return; the window keeps its
    size and its keys stay distinct; the pair is stored, the entry at the
    newest key is gone, not the one at the oldest, and every other entry
    is kept; the frame is rebuilt from the window. *)
Theorem update_window_newer (tmstmp : Z) (price : Pandas.row)
  (s : CoinFrame.CoinFrame) (newest : Z) :
  Dict.unique (CoinFrame.live s) = true ->
  Py.max (Dict.keys (CoinFrame.live s)) = Ok newest ->
  newest < tmstmp ->
  exists s',
    CoinFrame.update_window (tmstmp, price) s = (Ok tt, s')
    /\ List.length (CoinFrame._src s') = List.length (CoinFrame.live s)
    /\ Dict.unique (CoinFrame._src s') = true
    /\ Dict.get tmstmp (CoinFrame._src s') = Some price
    /\ Dict.get newest (CoinFrame._src s') = None
    /\ (forall k, k <> newest -> k <> tmstmp ->
                  Dict.get k (CoinFrame._src s') = Dict.get k (CoinFrame.live s))
    /\ CoinFrame._obj s' = Pandas.from_dict_index (CoinFrame._src s').
Proof.
  intros Hu Hmax Hlt.
  pose proof (update_window_state tmstmp price s Hmax) as Hrun.
  assert (Hgt : (tmstmp - newest >? 0) = true) by (apply Z.gtb_lt; lia).
  cbv zeta in Hrun. rewrite Hgt in Hrun.
  destruct (get_key _ _ (max_In _ Hmax)) as [row0 Hrow0].
  assert (Hfresh : Dict.get tmstmp (Dict.remove newest (CoinFrame.live s)) = None).
  { rewrite get_remove_other by lia.
    destruct (Dict.get tmstmp (CoinFrame.live s)) as [r|] eqn:Hg; [|reflexivity].
    assert (tmstmp <= newest)
      by (eapply max_ge; [exact Hmax|eapply get_Some_key; exact Hg]).
    lia. }
  eexists. split; [exact Hrun|].
  cbn [CoinFrame._src CoinFrame._obj CoinFrame.set_obj CoinFrame.set_src].
  split; [|split; [|split; [|split; [|split]]]].
  - rewrite length_setitem_new by exact Hfresh.
    apply (length_remove _ _ Hrow0).
  - apply unique_setitem, unique_remove, Hu.
  - apply get_setitem_same.
  - rewrite get_setitem_other by lia. now apply get_remove_same.
  - intros k Hk1 Hk2. rewrite get_setitem_other by congruence.
    now apply get_remove_other.
  - reflexivity.
Qed.

Lemma update_window_newer_witness :
  exists s',
    CoinFrame.update_window (3, Examples.row 16) Examples.live_frame = (Ok tt, s')
    /\ List.length (CoinFrame._src s')
       = List.length (CoinFrame.live Examples.live_frame)
    /\ Dict.unique (CoinFrame._src s') = true
    /\ Dict.get 3 (CoinFrame._src s') = Some (Examples.row 16)
    /\ Dict.get 2 (CoinFrame._src s') = None
    /\ (forall k, k <> 2 -> k <> 3 ->
                  Dict.get k (CoinFrame._src s')
                  = Dict.get k (CoinFrame.live Examples.live_frame))
    /\ CoinFrame._obj s' = Pandas.from_dict_index (CoinFrame._src s').
Proof.
  apply (@update_window_newer 3 (Examples.row 16) Examples.live_frame 2);
    reflexivity.
Defined.

(** X2.  The statements of [update] that follow the reading of the feed
    (no call reaches them), run on a pair whose timestamp is not newer
    than the newest key of a window with distinct keys, remove nothing:
    the pair is stored at its key, every other entry is kept, and the
    window grows by one entry exactly when the timestamp was not a key
    yet. *)
Theorem update_window_not_newer (tmstmp : Z) (price : Pandas.row)
  (s : CoinFrame.CoinFrame) (newest : Z) :
  Dict.unique (CoinFrame.live s) = true ->
  Py.max (Dict.keys (CoinFrame.live s)) = Ok newest ->
  tmstmp <= newest ->
  exists s',
    CoinFrame.update_window (tmstmp, price) s = (Ok tt, s')
    /\ Dict.unique (CoinFrame._src s') = true
    /\ Dict.get tmstmp (CoinFrame._src s') = Some price
    /\ (forall k, k <> tmstmp ->
                  Dict.get k (CoinFrame._src s') = Dict.get k (CoinFrame.live s))
    /\ List.length (CoinFrame._src s')
       = (match Dict.get tmstmp (CoinFrame.live s) with
          | Some _ => List.length (CoinFrame.live s)
          | None => S (List.length (CoinFrame.live s))
          end)
    /\ CoinFrame._obj s' = Pandas.from_dict_index (CoinFrame._src s').
Proof.
  intros Hu Hmax Hle.
  pose proof (update_window_state tmstmp price s Hmax) as Hrun.
  assert (Hgt : (tmstmp - newest >? 0) = false).
  { destruct (tmstmp - newest >? 0) eqn:E; [|reflexivity].
    apply Z.gtb_lt in E. lia. }
  cbv zeta in Hrun. rewrite Hgt in Hrun.
  eexists. split; [exact Hrun|].
  cbn [CoinFrame._src CoinFrame._obj CoinFrame.set_obj CoinFrame.set_src].
  split; [apply unique_setitem, Hu|].
  split; [apply get_setitem_same|].
  split; [intros k Hk; now apply get_setitem_other|].
  split; [|reflexivity].
  destruct (Dict.get tmstmp (CoinFrame.live s)) as [r|] eqn:Hg.
  - eapply length_setitem_old. exact Hg.
  - apply length_setitem_new. exact Hg.
Qed.

Lemma update_window_not_newer_witness :
  exists s',
    CoinFrame.update_window (1, Examples.row 16) Examples.live_frame = (Ok tt, s')
    /\ Dict.unique (CoinFrame._src s') = true
    /\ Dict.get 1 (CoinFrame._src s') = Some (Examples.row 16)
    /\ (forall k, k <> 1 ->
                  Dict.get k (CoinFrame._src s')
                  = Dict.get k (CoinFrame.live Examples.live_frame))
    /\ List.length (CoinFrame._src s')
       = (match Dict.get 1 (CoinFrame.live Examples.live_frame) with
          | Some _ => List.length (CoinFrame.live Examples.live_frame)
          | None => S (List.length (CoinFrame.live Examples.live_frame))
          end)
    /\ CoinFrame._obj s' = Pandas.from_dict_index (CoinFrame._src s').
Proof.
  apply (@update_window_not_newer 1 (Examples.row 16) Examples.live_frame 2);
    try reflexivity.
  lia.
Defined.

(** X3.  In back-test mode an empty live buffer ends the run even though
    the replay queue still holds entries: [first()] fails on the empty
    buffer, the failure is reported as [BackTestCompletedError], and no
    entry has left the replay queue. *)
Theorem backtest_update_on_empty_live_buffer (s : CoinFrame.CoinFrame) (next : Z) :
  CoinFrame.is_backtest s = true ->
  CoinFrame.live s = [] ->
  Py.min (Dict.keys (CoinFrame._src_backtest s)) = Ok next ->
  exists s',
    CoinFrame._update_backtest s = (Raise BackTestCompletedError, s')
    /\ (forall asset feed,
           CoinFrame.str_truthy (CoinFrame.str_or asset (CoinFrame.asset_id s)) = true ->
           CoinFrame.update asset feed s = (Raise BackTestCompletedError, s'))
    /\ CoinFrame._src_backtest s' = CoinFrame._src_backtest s
    /\ CoinFrame.live s' = []
    /\ CoinFrame._obj s' = CoinFrame._obj s.
Proof.
  intros Hbt Hlive Hnext.
  assert (Hrun : CoinFrame._update_backtest s
                 = (Raise BackTestCompletedError, CoinFrame.set_src [] s)).
  { unfold CoinFrame._update_backtest, except_ValueError, bind.
    rewrite first_run. cbn [negb]. rewrite Hnext, Hlive.
    rewrite first_run. cbn [negb].
    assert (Hl : CoinFrame.live (CoinFrame.set_src [] s) = []).
    { rewrite <- Hlive at 1. rewrite live_reloaded. exact Hlive. }
    rewrite Hl. reflexivity. }
  exists (CoinFrame.set_src [] s).
  split; [exact Hrun|]. split.
  - intros asset feed Hasset.
    unfold CoinFrame.update, bind, self. rewrite Hasset, Hbt. cbn [negb].
    exact Hrun.
  - repeat split.
    rewrite <- Hlive at 1. rewrite live_reloaded. exact Hlive.
Qed.

Lemma backtest_update_on_empty_live_buffer_witness :
  exists s',
    CoinFrame._update_backtest Examples.empty_live_frame
    = (Raise BackTestCompletedError, s')
    /\ (forall asset feed,
           CoinFrame.str_truthy
             (CoinFrame.str_or asset (CoinFrame.asset_id Examples.empty_live_frame))
           = true ->
           CoinFrame.update asset feed Examples.empty_live_frame
           = (Raise BackTestCompletedError, s'))
    /\ CoinFrame._src_backtest s' = CoinFrame._src_backtest Examples.empty_live_frame
    /\ CoinFrame.live s' = []
    /\ CoinFrame._obj s' = CoinFrame._obj Examples.empty_live_frame.
Proof.
  apply (@backtest_update_on_empty_live_buffer Examples.empty_live_frame 3);
    reflexivity.
Defined.

(** ** The frame and the buffer *)

Lemma union_keys_price (k : nat) :
  Pandas.union_keys ["price"] (repeat "price" k) = ["price"].
Proof. induction k as [|k IH]; cbn; [reflexivity|exact IH]. Qed.

Lemma flat_map_keys_window (w : list (Z * float)) :
  flat_map (fun r : Pandas.row => Dict.keys r) (Dict.values (CoinFrame.window_rows w))
  = repeat "price" (List.length w).
Proof. induction w as [|[k p] w IH]; cbn; [reflexivity|]. now f_equal. Qed.

Lemma values_window (w : list (Z * float)) :
  map (fun r : Pandas.row =>
         match Dict.get "price" r with
         | Some x => x
         | None => nan
         end) (Dict.values (CoinFrame.window_rows w))
  = map snd w.
Proof. induction w as [|[k p] w IH]; cbn; [reflexivity|]. now f_equal. Qed.

Lemma keys_window (w : list (Z * float)) :
  Dict.keys (CoinFrame.window_rows w) = map fst w.
Proof. induction w as [|[k p] w IH]; cbn; [reflexivity|]. now f_equal. Qed.

(** The frame built from a window of prices. *)
Lemma from_dict_index_window (w : list (Z * float)) :
  Pandas.from_dict_index (CoinFrame.window_rows w)
  = {| Pandas.index := map fst w;
       Pandas.data := match w with
                      | [] => []
                      | _ :: _ => [("price", map snd w)]
                      end |}.
Proof.
  unfold Pandas.from_dict_index.
  rewrite flat_map_keys_window, keys_window. f_equal.
  destruct w as [|[k p] w]; [reflexivity|].
  cbn [List.length repeat Pandas.union_keys existsb app].
  rewrite union_keys_price. cbn [map]. now rewrite values_window.
Qed.

Lemma rows_of_columns (pre w : list (Z * float)) :
  map (fun p : nat * Z =>
         (snd p, map (fun c : string * list float =>
                        (fst c, Pandas.nth_value (snd c) (fst p)))
                     [("price", map snd (pre ++ w))]))
      (combine (seq (List.length pre) (List.length w)) (map fst w))
  = CoinFrame.window_rows w.
Proof.
  revert pre. induction w as [|[k p] w IH]; intros pre; [reflexivity|].
  cbn [List.length seq map combine fst snd CoinFrame.window_rows].
  f_equal.
  - unfold Pandas.nth_value. rewrite map_app, app_nth2; rewrite length_map; [|lia].
    now rewrite Nat.sub_diag.
  - specialize (IH (pre ++ [(k, p)])).
    rewrite <- app_assoc, length_app in IH. cbn [List.length app] in IH.
    rewrite Nat.add_1_r in IH. exact IH.
Qed.

(** X4.  A window of prices survives the round trip through the frame:
    [from_dict] builds the frame whose index is the timestamps in the
    order of the buffer, with the one column [price], and
    [to_dict(orient='index')] of that frame is the buffer again.  So a
    reload [src(r=True)] after [from_dict()] returns the live buffer as it
    was. *)
Theorem window_round_trip (w : list (Z * float)) (s : CoinFrame.CoinFrame) :
  Pandas.index (Pandas.from_dict_index (CoinFrame.window_rows w)) = map fst w
  /\ Pandas.to_dict_index (Pandas.from_dict_index (CoinFrame.window_rows w))
     = CoinFrame.window_rows w
  /\ (let s0 := CoinFrame.set_src (CoinFrame.window_rows w) s in
      let s1 := snd (CoinFrame.from_dict None s0) in
      fst (CoinFrame.src true false s1) = Ok (CoinFrame.window_rows w)
      /\ CoinFrame._src (snd (CoinFrame.src true false s1))
         = CoinFrame.window_rows w).
Proof.
  assert (Hrt : Pandas.to_dict_index (Pandas.from_dict_index (CoinFrame.window_rows w))
                = CoinFrame.window_rows w).
  { rewrite from_dict_index_window. unfold Pandas.to_dict_index.
    cbn [Pandas.index Pandas.data]. rewrite length_map.
    destruct w as [|[k p] w]; [reflexivity|].
    exact (rows_of_columns [] ((k, p) :: w)). }
  split; [now rewrite from_dict_index_window|]. split; [exact Hrt|].
  cbv zeta. rewrite from_dict_run. cbn [snd CoinFrame._src CoinFrame.set_src].
  unfold CoinFrame.src, bind, self, modify, ret.
  rewrite orb_true_r.
  cbn [fst snd CoinFrame._src CoinFrame._obj CoinFrame.set_src CoinFrame.set_obj negb].
  rewrite Hrt. split; reflexivity.
Qed.

(** ** The cache of last values *)

Section CacheFacts.

Lemma get_cache_items (k : string) (r : Pandas.row) (c : Dict.dict string float) :
  Dict.unique r = true ->
  Dict.get k (CoinFrame.cache_items r c)
  = match Dict.get k r with
    | Some v => Some v
    | None => Dict.get k c
    end.
Proof.
  revert c. induction r as [|[k0 v0] r IH]; intros c Hu; [reflexivity|].
  cbn [Dict.unique] in Hu. apply andb_true_iff in Hu. destruct Hu as [Hk Hr].
  cbn [CoinFrame.cache_items Dict.get]. rewrite (IH _ Hr).
  change (@key_eqb string string_key k0 k) with (String.eqb k0 k).
  destruct (String.eqb_spec k0 k) as [->|Hne].
  - rewrite (get_not_key k r) by (now apply negb_true_iff).
    apply get_setitem_same.
  - destruct (Dict.get k r); [reflexivity|]. now apply get_setitem_other.
Qed.

Lemma get_last_row (k : string) (i : nat) (cols : Dict.dict string (list float)) :
  Dict.get k (map (fun c : string * list float => (fst c, Pandas.nth_value (snd c) i)) cols)
  = option_map (fun col => Pandas.nth_value col i) (Dict.get k cols).
Proof.
  induction cols as [|[k0 c0] cols IH]; [reflexivity|].
  cbn [map Dict.get fst snd]. destruct (key_eqb k0 k); [reflexivity|exact IH].
Qed.

Lemma unique_last_row (i : nat) (cols : Dict.dict string (list float)) :
  Dict.unique (map (fun c : string * list float => (fst c, Pandas.nth_value (snd c) i)) cols)
  = Dict.unique cols.
Proof.
  induction cols as [|[k0 c0] cols IH]; [reflexivity|].
  cbn [map Dict.unique fst snd]. rewrite IH, map_map. reflexivity.
Qed.

End CacheFacts.

(** X5.  [cache] on a frame with rows and distinct column names returns
    the rows without nan and has stored, under each column name, the value
    of that column in the last row; the names it did not see keep their
    cached values, and nothing but [calcs] has changed. *)
Theorem cache_stores_last_row (df : Pandas.DataFrame) (s : CoinFrame.CoinFrame) :
  Dict.unique (Pandas.data df) = true ->
  Pandas.index df <> [] ->
  exists s',
    CoinFrame.cache df s = (Ok (Pandas.dropna df), s')
    /\ (forall name col,
           Dict.get name (Pandas.data df) = Some col ->
           Dict.get name (CoinFrame.calcs s')
           = Some (Pandas.nth_value col (List.length (Pandas.index df) - 1)))
    /\ (forall name,
           Dict.get name (Pandas.data df) = None ->
           Dict.get name (CoinFrame.calcs s') = Dict.get name (CoinFrame.calcs s))
    /\ CoinFrame._src s' = CoinFrame._src s
    /\ CoinFrame._src_backtest s' = CoinFrame._src_backtest s
    /\ CoinFrame._obj s' = CoinFrame._obj s.
Proof.
  intros Hu Hne.
  unfold CoinFrame.cache, bind, lift, modify, ret, Pandas.tail1_records.
  destruct (Pandas.index df) as [|t idx] eqn:Hidx; [congruence|].
  cbn [Py.getitem nth_error].
  eexists. split; [reflexivity|].
  cbn [CoinFrame.calcs CoinFrame._src CoinFrame._src_backtest CoinFrame._obj
       CoinFrame.set_calcs].
  split; [|split; [|repeat split]].
  - intros name col Hcol. rewrite get_cache_items by (now rewrite unique_last_row).
    now rewrite get_last_row, Hcol.
  - intros name Hnone. rewrite get_cache_items by (now rewrite unique_last_row).
    now rewrite get_last_row, Hnone.
Qed.

Lemma cache_stores_last_row_witness :
  exists s',
    CoinFrame.cache (CoinFrame._obj Examples.frame) Examples.frame
    = (Ok (Pandas.dropna (CoinFrame._obj Examples.frame)), s')
    /\ (forall name col,
           Dict.get name (Pandas.data (CoinFrame._obj Examples.frame)) = Some col ->
           Dict.get name (CoinFrame.calcs s')
           = Some (Pandas.nth_value col
                     (List.length (Pandas.index (CoinFrame._obj Examples.frame)) - 1)))
    /\ (forall name,
           Dict.get name (Pandas.data (CoinFrame._obj Examples.frame)) = None ->
           Dict.get name (CoinFrame.calcs s')
           = Dict.get name (CoinFrame.calcs Examples.frame))
    /\ CoinFrame._src s' = CoinFrame._src Examples.frame
    /\ CoinFrame._src_backtest s' = CoinFrame._src_backtest Examples.frame
    /\ CoinFrame._obj s' = CoinFrame._obj Examples.frame.
Proof.
  apply (@cache_stores_last_row (CoinFrame._obj Examples.frame) Examples.frame).
  - reflexivity.
  - discriminate.
Defined.

(** ** The extended float and the calcs in general *)

(** X11.  [Float] adds nothing to [float]: [Float(x)] of a float has the
    value [x], [Float()] is [0.0], and [Float(None)] is a [TypeError]; the
    sum, the difference and the product of two [Float]s are the binary64
    ones and never raise; the quotient is the binary64 one, and a zero
    divisor raises [ZeroDivisionError]. *)
Theorem Float_is_float (float_of_str : string -> option float) (x y : float) :
  Number.Float float_of_str (Some (VFloat x)) = Ok x
  /\ Number.Float float_of_str None = Ok 0%float
  /\ Number.Float float_of_str (Some VNone) = Raise TypeError
  /\ Number.__add__ float_of_str x y = Ok (x + y)%float
  /\ Number.__sub__ float_of_str x y = Ok (x - y)%float
  /\ Number.__mul__ float_of_str x y = Ok (x * y)%float
  /\ Number.__truediv__ float_of_str x y
     = (if PrimFloat.eqb y 0 then Raise ZeroDivisionError else Ok (x / y)%float).
Proof.
  split; [apply Float_of_float|]. split; [reflexivity|]. split; [reflexivity|].
  split; [apply Float_add|]. split; [apply Float_sub|]. split; [apply Float_mul|].
  destruct (PrimFloat.eqb y 0) eqn:Hy.
  - unfold Number.__truediv__, Py.float_truediv. now rewrite Hy.
  - now apply Float_truediv.
Qed.

(** X12.  The quotient of two calcs never raises: it is [0.0] as soon as
    one of the two values is zero (unset), and the binary64 quotient of the
    values otherwise. *)
Theorem Calc_truediv_total (float_of_str : string -> option float)
  (self other : Calc.Calc) :
  Calc.__truediv__ float_of_str self other
  = Ok (if Calc.__bool__ self && Calc.__bool__ other
        then (Calc.val self / Calc.val other)%float
        else 0%float).
Proof.
  unfold Calc.__truediv__.
  destruct (Calc.__bool__ self); cbn [andb]; [|reflexivity].
  destruct (Calc.__bool__ other) eqn:Ho; [|reflexivity].
  unfold Calc.__float__. rewrite Float_of_float. cbn [rbind].
  unfold Calc.__bool__, Py.float_bool in Ho. apply negb_true_iff in Ho.
  unfold Py.float_truediv. rewrite Ho. cbn [rbind]. apply Float_of_float.
Qed.

(** X13.  Whenever [Calc.__init__] gets as far as the call of
    [type_convert] that raises [TypeError], the name it has set is the
    first token with at most one trailing star removed, never two; the
    tokens are kept, the value is unset, and with a token list that does
    not have exactly two tokens and a name without a star the bound is
    the int [-1]. *)
Theorem Calc_init_name (float_of_str : string -> option float)
  (dir_object : list string) (raw : list string) (self' : Calc.Calc) :
  Calc.__init__ float_of_str dir_object (Calc.fresh raw) = (Raise TypeError, self') ->
  exists a,
    Py.getitem raw 0 = Ok a
    /\ Calc.nm self' = (if Py.endswith a "*" then Py.drop_last 1 a else a)
    /\ Calc.raw self' = raw
    /\ Calc.val self' = 0%float
    /\ (List.length raw <> 2%nat -> Py.endswith a "*" = false ->
        Calc.bound self' = VInt (-1)).
Proof.
  unfold Calc.__init__, bind, Method.self, lift, modify, ret.
  rewrite type_convert_by_alias_raises. cbn [Calc.fresh Calc.raw].
  intros Hinit.
  assert (Hp : exists a b,
             Py.getitem raw 0 = Ok a
             /\ (List.length raw <> 2%nat -> b = VInt (-1))
             /\ (exists y, Number.Float float_of_str (Some b) = Ok y)
             /\ (if (List.length raw =? 2)%nat
                 then let? r0 := Py.getitem raw 0 in
                      let? r1 := Py.getitem raw 1 in
                      let? b := Number.Float float_of_str (Some (VStr r1)) in
                      Ok (r0, VFloat b)
                 else let? r0 := Py.getitem raw 0 in
                      Ok (r0, VInt (-1))) = Ok (a, b)).
  { assert (Hget : forall i x, Py.getitem raw i = Raise x -> x = IndexError).
    { intros i x. unfold Py.getitem. destruct (nth_error raw i); congruence. }
    destruct (List.length raw =? 2)%nat eqn:Hlen.
    - destruct (Py.getitem raw 0) as [a|x] eqn:H0.
      2:{ apply Hget in H0. subst x. discriminate Hinit. }
      cbn [rbind] in Hinit |- *.
      destruct (Py.getitem raw 1) as [r1|x] eqn:H1.
      2:{ apply Hget in H1. subst x. discriminate Hinit. }
      cbn [rbind] in Hinit |- *.
      destruct (Number.Float float_of_str (Some (VStr r1))) as [b|x] eqn:Hb.
      + exists a, (VFloat b). split; [reflexivity|]. split.
        * apply Nat.eqb_eq in Hlen. congruence.
        * split; [|reflexivity]. exists b. apply Float_of_float.
      + apply Float_of_str_error in Hb. subst x. discriminate Hinit.
    - destruct (Py.getitem raw 0) as [a|x] eqn:H0.
      2:{ apply Hget in H0. subst x. discriminate Hinit. }
      exists a, (VInt (-1)). split; [reflexivity|]. split; [reflexivity|].
      split; [|reflexivity]. exists (-1)%float. vm_compute. reflexivity. }
  destruct Hp as (a & b & Ha & Hb & (y & Hy) & Hp).
  rewrite Hp in Hinit. cbn [fst snd Calc.nm Calc.bound Calc.set_nm_bound] in Hinit.
  exists a. split; [exact Ha|].
  destruct (Py.endswith a "*") eqn:Hstar.
  - rewrite Hy, Float_mul in Hinit.
    injection Hinit as <-.
    cbn [Calc.nm Calc.raw Calc.val Calc.bound Calc.set_is_ma Calc.set_nm_bound
         Calc.fresh].
    repeat split. discriminate.
  - assert (H2 : Py.endswith a "**" = false).
    { destruct (Py.endswith a "**") eqn:E; [|reflexivity].
      apply endswith_double_star in E. congruence. }
    rewrite H2 in Hinit.
    injection Hinit as <-.
    cbn [Calc.nm Calc.raw Calc.val Calc.bound Calc.set_is_ma Calc.set_nm_bound
         Calc.fresh].
    repeat split. intros Hlen _. exact (Hb Hlen).
Qed.

Lemma Calc_init_name_witness :
  exists a,
    Py.getitem ["price-last**"; "2"] 0 = Ok a
    /\ Calc.nm (snd (Calc.__init__ Examples.decimal_literal []
                       (Calc.fresh ["price-last**"; "2"])))
       = (if Py.endswith a "*" then Py.drop_last 1 a else a)
    /\ Calc.raw (snd (Calc.__init__ Examples.decimal_literal []
                        (Calc.fresh ["price-last**"; "2"])))
       = ["price-last**"; "2"]
    /\ Calc.val (snd (Calc.__init__ Examples.decimal_literal []
                        (Calc.fresh ["price-last**"; "2"])))
       = 0%float
    /\ (List.length ["price-last**"; "2"] <> 2%nat -> Py.endswith a "*" = false ->
        Calc.bound (snd (Calc.__init__ Examples.decimal_literal []
                           (Calc.fresh ["price-last**"; "2"])))
        = VInt (-1)).
Proof.
  apply (@Calc_init_name Examples.decimal_literal [] ["price-last**"; "2"]
           (snd (Calc.__init__ Examples.decimal_literal []
                   (Calc.fresh ["price-last**"; "2"])))).
  vm_compute. reflexivity.
Defined.

(** ** The warm-up of the moving averages *)

(** The first [k] values of a column are nan. *)
Abbreviation nan_until k xs :=
  (forall j : nat, (j < k)%nat -> Pandas.nth_value xs j = nan).

Lemma nth_value_map (f : float -> float) (xs : list float) (j : nat) :
  f nan = nan ->
  Pandas.nth_value (map f xs) j = f (Pandas.nth_value xs j).
Proof.
  intros Hf. unfold Pandas.nth_value.
  rewrite <- Hf at 1. apply map_nth.
Qed.

Lemma nan_until_map (f : float -> float) (k : nat) (xs : list float) :
  f nan = nan -> nan_until k xs -> nan_until k (map f xs).
Proof.
  intros Hf Hxs j Hj. rewrite nth_value_map by exact Hf. now rewrite (Hxs j Hj).
Qed.

Lemma nth_value_map2_nan (f : float -> float -> float) (xs ys : list float) (j : nat) :
  (forall x, f x nan = nan) ->
  Pandas.nth_value ys j = nan ->
  Pandas.nth_value (Pandas.map2 f xs ys) j = nan.
Proof.
  intros Hf. unfold Pandas.nth_value.
  revert ys j. induction xs as [|x xs IH]; intros ys j Hy.
  - now destruct j.
  - destruct ys as [|y ys]; [now destruct j|].
    destruct j as [|j]; cbn in *.
    + now rewrite Hy.
    + now apply IH.
Qed.

Lemma nan_until_map2 (f : float -> float -> float) (k : nat) (xs ys : list float) :
  (forall x, f x nan = nan) -> nan_until k ys -> nan_until k (Pandas.map2 f xs ys).
Proof.
  intros Hf Hys j Hj. apply nth_value_map2_nan; [exact Hf|exact (Hys j Hj)].
Qed.

Lemma nth_removelast (xs : list float) (j : nat) :
  nth j xs nan = nan -> nth j (removelast xs) nan = nan.
Proof.
  revert j. induction xs as [|x xs IH]; intros j Hj; [now destruct j|].
  destruct xs as [|y xs]; [now destruct j|].
  destruct j as [|j]; [exact Hj|].
  change (removelast (x :: y :: xs)) with (x :: removelast (y :: xs)).
  cbn [nth]. apply IH. exact Hj.
Qed.

Lemma nan_until_shift1 (k : nat) (xs : list float) :
  nan_until k xs -> nan_until (S k) (Pandas.shift1 xs).
Proof.
  intros Hxs j Hj. unfold Pandas.shift1, Pandas.nth_value.
  destruct xs as [|x xs]; [now destruct j|].
  destruct j as [|j]; [reflexivity|].
  cbn [nth]. apply nth_removelast. apply (Hxs j). lia.
Qed.

Lemma nth_map_seq (g : nat -> float) (n j : nat) (d : float) :
  (j < n)%nat -> nth j (map g (seq 0 n)) d = g j.
Proof.
  intros Hj. rewrite (nth_indep _ d (g 0%nat)) by (now rewrite length_map, length_seq).
  rewrite map_nth, seq_nth by exact Hj. reflexivity.
Qed.

Lemma nan_until_rolling (agg : list float -> float) (k : nat) (xs : list float) :
  nan_until (k - 1) (Pandas.rolling_col agg k xs).
Proof.
  intros j Hj. unfold Pandas.rolling_col, Pandas.nth_value.
  destruct (Nat.lt_ge_cases j (List.length xs)) as [Hlt|Hge].
  - rewrite nth_map_seq by exact Hlt.
    unfold Pandas.window.
    replace (j + 1 <? k)%nat with true; [reflexivity|].
    symmetry. apply Nat.ltb_lt. lia.
  - apply nth_overflow. now rewrite length_map, length_seq.
Qed.

(** A row is dropped as soon as one of its values is nan. *)
Lemma keep_row_nan (df : Pandas.DataFrame) (name : string) (col : list float) (j : nat) :
  Dict.get name (Pandas.data df) = Some col ->
  Pandas.nth_value col j = nan ->
  Pandas.keep_row df j = false.
Proof.
  intros Hget Hnan. unfold Pandas.keep_row.
  induction (Pandas.data df) as [|[k0 c0] cols IH]; [discriminate|].
  cbn [Dict.get] in Hget. cbn [forallb snd].
  destruct (key_eqb k0 name).
  - injection Hget as ->. now rewrite Hnan.
  - rewrite (IH Hget). apply andb_false_r.
Qed.

Section Select.
Context {A : Type}.
Variable keep : nat -> bool.
Abbreviation select_from := (@Pandas.select_from A keep).

Lemma select_from_cons (a : nat) (x : A) (xs : list A) :
  select_from a (x :: xs)
  = (if keep a then [x] else []) ++ select_from (S a) xs.
Proof.
  unfold Pandas.select_from. cbn [List.length seq combine filter fst].
  now destruct (keep a).
Qed.

Lemma select_from_skip (k a : nat) (xs : list A) :
  (forall j, (j < k)%nat -> keep j = false) ->
  select_from a xs = select_from (a + (k - a)) (skipn (k - a) xs).
Proof.
  intros Hk. revert a. induction xs as [|x xs IH]; intros a.
  - now rewrite skipn_nil.
  - destruct (k - a)%nat as [|d] eqn:Hd.
    + now rewrite Nat.add_0_r.
    + rewrite select_from_cons, Hk by lia. cbn [app skipn].
      rewrite IH. replace (k - S a)%nat with d by lia.
      now replace (S a + d)%nat with (a + S d)%nat by lia.
Qed.

Lemma select_from_In (a : nat) (xs : list A) (t : A) :
  In t (select_from a xs) -> In t xs.
Proof.
  revert a. induction xs as [|x xs IH]; intros a; [auto|].
  rewrite select_from_cons. intros Hin. apply in_app_or in Hin.
  destruct Hin as [Hin|Hin].
  - destruct (keep a); [|contradiction]. destruct Hin as [->|[]]. now left.
  - right. exact (IH _ Hin).
Qed.

Lemma select_from_length (a : nat) (xs : list A) :
  (List.length (select_from a xs) <= List.length xs)%nat.
Proof.
  revert a. induction xs as [|x xs IH]; intros a; [auto|].
  rewrite select_from_cons, length_app. specialize (IH (S a)).
  destruct (keep a); cbn [List.length]; lia.
Qed.

End Select.

Lemma select_is_select_from {A : Type} (keep : nat -> bool) (xs : list A) :
  Pandas.select keep xs = Pandas.select_from keep 0 xs.
Proof. reflexivity. Qed.

(** What [dropna] keeps of a frame whose first [k] rows hold a nan. *)
Lemma dropna_warm_up (df : Pandas.DataFrame) (k : nat) :
  (forall j, (j < k)%nat -> Pandas.keep_row df j = false) ->
  (List.length (Pandas.index (Pandas.dropna df))
   <= List.length (Pandas.index df) - k)%nat
  /\ (forall t, In t (Pandas.index (Pandas.dropna df)) ->
                In t (skipn k (Pandas.index df))).
Proof.
  intros Hk. unfold Pandas.dropna. cbn [Pandas.index].
  rewrite select_is_select_from, (select_from_skip (Pandas.keep_row df) 0 _ Hk).
  rewrite Nat.sub_0_r. split.
  - etransitivity; [apply select_from_length|]. now rewrite length_skipn.
  - intros t. apply select_from_In.
Qed.

Lemma drop_all_keeps (names : list string) (df df' : Pandas.DataFrame) (name : string) :
  CoinFrame.drop_all names df = Ok df' ->
  ~ In name names ->
  Pandas.index df' = Pandas.index df
  /\ Dict.get name (Pandas.data df') = Dict.get name (Pandas.data df).
Proof.
  revert df. induction names as [|c names IH]; intros df Hdrop Hnot.
  - injection Hdrop as <-. auto.
  - cbn [CoinFrame.drop_all] in Hdrop. unfold Pandas.drop, Dict.pop in Hdrop.
    destruct (Dict.get c (Pandas.data df)) as [col|]; [|discriminate].
    cbn [rbind snd] in Hdrop.
    destruct (IH _ Hdrop) as [Hi Hg]; [intros Hin; apply Hnot; now right|].
    rewrite Hi, Hg. cbn [Pandas.index Pandas.data]. split; [reflexivity|].
    apply get_remove_other. intros ->. apply Hnot. now left.
Qed.

Lemma cache_returns (df0 df : Pandas.DataFrame) (s s' : CoinFrame.CoinFrame) :
  CoinFrame.cache df0 s = (Ok df, s') -> df = Pandas.dropna df0.
Proof.
  unfold CoinFrame.cache, bind, lift, modify, ret.
  destruct (Py.getitem (Pandas.tail1_records df0) 0); [|discriminate].
  intros Hr. now injection Hr as <- <-.
Qed.

(** The moving-average column of [ema] and [dema]: nan on the first [k]
    rows. *)
Lemma ema_column_warm_up (m : float) (k : nat) (P prev : list float) :
  nan_until (k - 1) prev ->
  (1 <= k)%nat ->
  nan_until k
    (Pandas.map2 PrimFloat.add
       (map (fun p => p * m)%float P)
       (map (fun a => a * (1 - m))%float (Pandas.shift1 prev))).
Proof.
  intros Hprev Hk.
  apply nan_until_map2; [apply add_nan_r|].
  apply nan_until_map; [apply mul_nan_l|].
  replace k with (S (k - 1)) by lia. now apply nan_until_shift1.
Qed.

(** X14.  [ema(n)] emits nothing for the first [n] rows of a price frame:
    when it returns, with a window [n >= 1] (the argument, or the default
    [self.i]), its frame has at most [len - n] rows and every timestamp in
    it comes after the first [n] rows. *)
Theorem ema_warm_up (n : option Z) (suffix drop_cols : bool)
  (s s' : CoinFrame.CoinFrame) (P : list float) (df : Pandas.DataFrame) :
  Pandas.data (CoinFrame._obj s) = [("price", P)] ->
  1 <= CoinFrame.or_i n s ->
  CoinFrame.ema n suffix drop_cols s = (Ok df, s') ->
  (List.length (Pandas.index df)
   <= List.length (Pandas.index (CoinFrame._obj s)) - Z.to_nat (CoinFrame.or_i n s))%nat
  /\ (forall t, In t (Pandas.index df) ->
                In t (skipn (Z.to_nat (CoinFrame.or_i n s))
                        (Pandas.index (CoinFrame._obj s)))).
Proof.
  intros HP Hk.
  unfold CoinFrame.ema, bind, self, lift. cbv beta iota zeta.
  set (k := CoinFrame.or_i n s) in *.
  destruct (Py.int_truediv 2 (k + 1)) as [m|x]; [|discriminate].
  unfold Pandas.rolling.
  replace (k <? 0) with false by (symmetry; apply Z.ltb_ge; lia).
  set (x := Py.strip "_" (if suffix then ("_" ++ Py.str_of_int k)%string else "")).
  set (sma_col := ("sma (n=" ++ x ++ ")")%string).
  set (ema1_col := ("ema (i=1, n=" ++ x ++ ")")%string).
  assert (Hsp : sma_col <> "price") by (subst sma_col; cbn; discriminate).
  assert (Hep : ema1_col <> "price") by (subst ema1_col; cbn; discriminate).
  assert (Hes : ema1_col <> sma_col) by (subst ema1_col sma_col; cbn; discriminate).
  set (R := Pandas.rolling_col Pandas.mean (Z.to_nat k) P).
  assert (Hdata : Pandas.data
                    (Pandas.concat1 (CoinFrame._obj s)
                       (Pandas.rename "price" sma_col
                          (Pandas.map_columns
                             (Pandas.rolling_col Pandas.mean (Z.to_nat k))
                             (CoinFrame._obj s))))
                  = [("price", P); (sma_col, R)]).
  { cbn [Pandas.concat1 Pandas.rename Pandas.map_columns Pandas.data].
    rewrite HP. reflexivity. }
  unfold Pandas.getattr, Pandas.getitem, Dict.getitem. rewrite Hdata.
  replace (Dict.get "price" [("price", P); (sma_col, R)]) with (Some P) by reflexivity.
  replace (Dict.get sma_col [("price", P); (sma_col, R)]) with (Some R).
  2:{ rewrite <- (get_setitem_same sma_col R [("price", P)]).
      cbn [Dict.setitem]. now rewrite (key_eqb_neq (not_eq_sym Hsp)). }
  set (E := Pandas.map2 PrimFloat.add _ _).
  assert (HE : nan_until (Z.to_nat k) E).
  { subst E. apply ema_column_warm_up; [apply nan_until_rolling|lia]. }
  set (dfE := Pandas.setitem ema1_col E _).
  assert (HdfE : Pandas.index dfE = Pandas.index (CoinFrame._obj s)
                 /\ Dict.get ema1_col (Pandas.data dfE) = Some E).
  { subst dfE. cbn [Pandas.setitem Pandas.index Pandas.data Pandas.concat1].
    split; [reflexivity|apply get_setitem_same]. }
  destruct HdfE as [Hidx Hget].
  assert (Hfinal : forall dfF,
             (if drop_cols then CoinFrame.drop_all [sma_col; "price"] dfE else Ok dfE)
             = Ok dfF ->
             Pandas.index dfF = Pandas.index (CoinFrame._obj s)
             /\ Dict.get ema1_col (Pandas.data dfF) = Some E).
  { intros dfF HdfF. destruct drop_cols.
    - destruct (drop_all_keeps _ _ ema1_col HdfF) as [Hi Hg].
      + intros [H|[H|[]]]; congruence.
      + now rewrite Hi, Hg.
    - injection HdfF as <-. auto. }
  destruct (if drop_cols then _ else _) as [dfF|x0]; [|discriminate].
  destruct (Hfinal dfF eq_refl) as [HiF HgF].
  intros Hcache. apply cache_returns in Hcache. subst df.
  rewrite <- HiF. apply dropna_warm_up.
  intros j Hj. eapply keep_row_nan; [exact HgF|exact (HE j Hj)].
Qed.

(** X15.  [dema(n)] emits nothing for the first [n + 1] rows of a price
    frame: when it returns, with a window [n >= 1] (the argument, or the
    default [self.i]), its frame has at most [len - (n + 1)] rows and every
    timestamp in it comes after the first [n + 1] rows. *)
Theorem dema_warm_up (n : option Z) (suffix drop_cols : bool)
  (s s' : CoinFrame.CoinFrame) (P : list float) (df : Pandas.DataFrame) :
  Pandas.data (CoinFrame._obj s) = [("price", P)] ->
  1 <= CoinFrame.or_i n s ->
  CoinFrame.dema n suffix drop_cols s = (Ok df, s') ->
  (List.length (Pandas.index df)
   <= List.length (Pandas.index (CoinFrame._obj s))
      - S (Z.to_nat (CoinFrame.or_i n s)))%nat
  /\ (forall t, In t (Pandas.index df) ->
                In t (skipn (S (Z.to_nat (CoinFrame.or_i n s)))
                        (Pandas.index (CoinFrame._obj s)))).
Proof.
  intros HP Hk.
  unfold CoinFrame.dema, bind, self, lift. cbv beta iota zeta.
  set (k := CoinFrame.or_i n s) in *.
  destruct (Py.int_truediv 2 (k + 1)) as [m|x]; [|discriminate].
  unfold Pandas.rolling.
  replace (k <? 0) with false by (symmetry; apply Z.ltb_ge; lia).
  set (x := Py.strip "_" (if suffix then ("_" ++ Py.str_of_int k)%string else "")).
  set (sma_col := ("sma (n=" ++ x ++ ")")%string).
  set (ema1_col := ("ema (i=1, n=" ++ x ++ ")")%string).
  set (ema2_col := ("ema2 (i=2, n=" ++ x ++ ")")%string).
  set (dema_col := ("dema (n=" ++ x ++ ")")%string).
  assert (Hsp : sma_col <> "price") by (subst sma_col; cbn; discriminate).
  assert (Hep : ema1_col <> "price") by (subst ema1_col; cbn; discriminate).
  assert (H21 : ema2_col <> ema1_col) by (subst ema1_col ema2_col; cbn; discriminate).
  assert (Hds : dema_col <> sma_col) by (subst dema_col sma_col; cbn; discriminate).
  assert (Hd1 : dema_col <> ema1_col) by (subst dema_col ema1_col; cbn; discriminate).
  assert (Hd2 : dema_col <> ema2_col) by (subst dema_col ema2_col; cbn; discriminate).
  assert (Hdp : dema_col <> "price") by (subst dema_col; cbn; discriminate).
  set (R := Pandas.rolling_col Pandas.mean (Z.to_nat k) P).
  set (base := Pandas.concat1 _ _).
  assert (Hdata : Pandas.data base = [("price", P); (sma_col, R)]).
  { subst base. cbn [Pandas.concat1 Pandas.rename Pandas.map_columns Pandas.data].
    rewrite HP. reflexivity. }
  unfold Pandas.getattr, Pandas.getitem, Dict.getitem.
  cbn [Pandas.setitem Pandas.data Pandas.index].
  rewrite Hdata.
  replace (Dict.get "price" [("price", P); (sma_col, R)]) with (Some P) by reflexivity.
  replace (Dict.get sma_col [("price", P); (sma_col, R)]) with (Some R).
  2:{ rewrite <- (get_setitem_same sma_col R [("price", P)]).
      cbn [Dict.setitem]. now rewrite (key_eqb_neq (not_eq_sym Hsp)). }
  cbv beta iota.
  set (E1 := Pandas.map2 PrimFloat.add _ _).
  assert (HE1 : nan_until (Z.to_nat k) E1).
  { subst E1. apply ema_column_warm_up; [apply nan_until_rolling|lia]. }
  rewrite (@get_setitem_other _ _ _ ema1_col "price" E1 _ Hep).
  replace (Dict.get "price" [("price", P); (sma_col, R)]) with (Some P) by reflexivity.
  rewrite (get_setitem_same ema1_col E1).
  cbv beta iota.
  set (E2 := Pandas.map2 PrimFloat.add _ _).
  assert (HE2 : nan_until (S (Z.to_nat k)) E2).
  { subst E2. apply ema_column_warm_up; [|lia].
    replace (S (Z.to_nat k) - 1)%nat with (Z.to_nat k) by lia. exact HE1. }
  rewrite (@get_setitem_other _ _ _ ema2_col ema1_col E2 _ H21).
  rewrite (get_setitem_same ema1_col E1).
  rewrite (get_setitem_same ema2_col E2).
  cbv beta iota.
  set (D := Pandas.map2 PrimFloat.sub _ _).
  assert (HD : nan_until (S (Z.to_nat k)) D).
  { subst D. apply nan_until_map2; [apply sub_nan_r|exact HE2]. }
  set (dfD := Pandas.setitem dema_col D _).
  assert (HdfD : Pandas.index dfD = Pandas.index (CoinFrame._obj s)
                 /\ Dict.get dema_col (Pandas.data dfD) = Some D).
  { subst dfD. cbn [Pandas.setitem Pandas.index Pandas.data].
    split; [reflexivity|]. apply get_setitem_same. }
  destruct HdfD as [Hidx Hget].
  assert (Hfinal : forall dfF,
             (if drop_cols
              then CoinFrame.drop_all [sma_col; ema1_col; ema2_col; "price"] dfD
              else Ok dfD) = Ok dfF ->
             Pandas.index dfF = Pandas.index (CoinFrame._obj s)
             /\ Dict.get dema_col (Pandas.data dfF) = Some D).
  { intros dfF HdfF. destruct drop_cols.
    - destruct (drop_all_keeps _ _ dema_col HdfF) as [Hi Hg].
      + intros [H|[H|[H|[H|[]]]]]; congruence.
      + now rewrite Hi, Hg.
    - injection HdfF as <-. auto. }
  destruct (if drop_cols then _ else _) as [dfF|x0]; [|discriminate].
  destruct (Hfinal dfF eq_refl) as [HiF HgF].
  intros Hcache. apply cache_returns in Hcache. subst df.
  rewrite <- HiF. apply dropna_warm_up.
  intros j Hj. eapply keep_row_nan; [exact HgF|exact (HD j Hj)].
Qed.

Lemma ema_warm_up_witness :
  (List.length (Pandas.index {| Pandas.index := [2; 3]%Z;
                                Pandas.data := [("ema (i=1, n=2)", [13; 15]%float)] |})
   <= List.length (Pandas.index (CoinFrame._obj Examples.frame))
      - Z.to_nat (CoinFrame.or_i (Some 2%Z) Examples.frame))%nat
  /\ (forall t,
         In t (Pandas.index {| Pandas.index := [2; 3]%Z;
                               Pandas.data := [("ema (i=1, n=2)", [13; 15]%float)] |}) ->
         In t (skipn (Z.to_nat (CoinFrame.or_i (Some 2%Z) Examples.frame))
                 (Pandas.index (CoinFrame._obj Examples.frame)))).
Proof.
  apply (@ema_warm_up (Some 2%Z) true true Examples.frame
           (CoinFrame.set_calcs [("ema (i=1, n=2)", 15%float)] Examples.frame)
           [10; 12; 14; 16]%float).
  - reflexivity.
  - vm_compute. discriminate.
  - vm_compute. reflexivity.
Defined.

Lemma dema_warm_up_witness :
  (List.length (Pandas.index {| Pandas.index := [3]%Z;
                                Pandas.data := [("dema (n=2)", [15%float])] |})
   <= List.length (Pandas.index (CoinFrame._obj Examples.frame))
      - S (Z.to_nat (CoinFrame.or_i (Some 2%Z) Examples.frame)))%nat
  /\ (forall t,
         In t (Pandas.index {| Pandas.index := [3]%Z;
                               Pandas.data := [("dema (n=2)", [15%float])] |}) ->
         In t (skipn (S (Z.to_nat (CoinFrame.or_i (Some 2%Z) Examples.frame)))
                 (Pandas.index (CoinFrame._obj Examples.frame)))).
Proof.
  apply (@dema_warm_up (Some 2%Z) true true Examples.frame
           (CoinFrame.set_calcs [("dema (n=2)", 15%float)] Examples.frame)
           [10; 12; 14; 16]%float).
  - reflexivity.
  - vm_compute. discriminate.
  - vm_compute. reflexivity.
Defined.

(** ** Setting the latest values on a condition *)

Lemma matches_get (n : string) (latest : Dict.dict string float) :
  hd_error (Condition.matches n latest) = Dict.get n latest.
Proof.
  unfold Condition.matches.
  induction latest as [|[k v] d IH]; [reflexivity|].
  cbn [filter fst Dict.get key_eqb string_key].
  destruct (String.eqb k n); [reflexivity|exact IH].
Qed.

Lemma same_but_val_refl (c : Calc.Calc) : Calc.same_but_val c c.
Proof. repeat split. Qed.

Lemma same_but_val_set_val (v : float) (c : Calc.Calc) :
  Calc.same_but_val c (Calc.set_val v c).
Proof. repeat split. Qed.

Lemma name_same_but_val (c c' : Calc.Calc) :
  Calc.same_but_val c c' -> Calc.name c' = Calc.name c.
Proof.
  intros (_ & Hnm & Hb & _). unfold Calc.name. now rewrite Hnm, Hb.
Qed.

(** One round of the loop: what it returns, by cases on the name and on
    the lookup. *)
Lemma apply_calc_cases (float_of_str : string -> option float)
  (latest : Dict.dict string float) (c : Calc.Calc) :
  match Calc.name c with
  | Raise e => Condition.apply_calc float_of_str latest c = inl (Condition.Error e)
  | Ok n =>
      match Dict.get n latest with
      | None => Condition.apply_calc float_of_str latest c
                = inl (Condition.ConditionNotFoundError n)
      | Some v => Condition.apply_calc float_of_str latest c
                  = inr (Calc.set_val v c)
      end
  end.
Proof.
  unfold Condition.apply_calc.
  destruct (Calc.name c) as [n|e]; [|reflexivity].
  rewrite <- matches_get.
  destruct (Condition.matches n latest) as [|v vs]; cbn [hd_error]; [reflexivity|].
  now rewrite Float_of_float.
Qed.

Lemma apply_calc_inr (float_of_str : string -> option float)
  (latest : Dict.dict string float) (c c' : Calc.Calc) :
  Condition.apply_calc float_of_str latest c = inr c' ->
  exists n v, Calc.name c = Ok n /\ Dict.get n latest = Some v
              /\ c' = Calc.set_val v c.
Proof.
  intros H. pose proof (apply_calc_cases float_of_str latest c) as Hc.
  destruct (Calc.name c) as [n|e]; [|congruence].
  destruct (Dict.get n latest) as [v|] eqn:Hv; [|congruence].
  exists n, v. split; [reflexivity|]. split; [exact Hv|congruence].
Qed.

(** X16.  Whether it returns or raises, [Condition.apply] changes nothing
    of a condition but the values of its calcs: the threshold, the
    comparison, the mode and the raw tokens are kept, and the calcs keep
    their keys, their order, their names and their bounds. *)
Theorem apply_only_sets_values (float_of_str : string -> option float)
  (latest : Dict.dict string float) (self : Condition.Condition) :
  let self' := snd (Condition.apply float_of_str latest self) in
  Condition.raw self' = Condition.raw self
  /\ Condition.t_r self' = Condition.t_r self
  /\ Condition.t self' = Condition.t self
  /\ Condition.gt self' = Condition.gt self
  /\ Condition.eq self' = Condition.eq self
  /\ Condition.mode self' = Condition.mode self
  /\ Forall2 (fun old new => fst new = fst old
                             /\ Calc.same_but_val (snd old) (snd new))
       (Condition.calcs self) (Condition.calcs self').
Proof.
  cbv zeta. unfold Condition.apply. cbn [snd Condition.set_calcs Condition.raw
    Condition.t_r Condition.t Condition.gt Condition.eq Condition.mode
    Condition.calcs].
  repeat (split; [reflexivity|]).
  induction (Condition.calcs self) as [|[i c] rest IH]; cbn [Condition.apply_items].
  - constructor.
  - destruct (Condition.apply_calc float_of_str latest c) as [e|c'] eqn:Hc;
      cbn [snd].
    + constructor; [split; [reflexivity|apply same_but_val_refl]|].
      clear. induction rest as [|p rest IH]; constructor;
        [split; [reflexivity|apply same_but_val_refl]|exact IH].
    + constructor; [|exact IH].
      split; [reflexivity|].
      apply apply_calc_inr in Hc. destruct Hc as (n & v & _ & _ & ->).
      apply same_but_val_set_val.
Qed.

Lemma apply_items_values (float_of_str : string -> option float)
  (latest : Dict.dict string float) (items : Dict.dict Z Calc.Calc) :
  fst (Condition.apply_items float_of_str latest items) = None ->
  Forall2 (fun old new =>
             exists n, Calc.name (snd old) = Ok n
                       /\ Dict.get n latest = Some (Calc.val (snd new)))
    items (snd (Condition.apply_items float_of_str latest items)).
Proof.
  induction items as [|[i c] rest IH]; cbn [Condition.apply_items].
  - constructor.
  - destruct (Condition.apply_calc float_of_str latest c) as [e|c'] eqn:Hc;
      cbn [fst snd]; [discriminate|].
    intros Hrest. constructor; [|exact (IH Hrest)].
    apply apply_calc_inr in Hc. destruct Hc as (n & v & Hn & Hv & ->).
    exists n. split; [exact Hn|exact Hv].
Qed.

(** X17.  When [Condition.apply] returns, every calc of the condition has
    a name that is a key of the dictionary passed, and its value is now
    the one stored under that name. *)
Theorem apply_sets_values (float_of_str : string -> option float)
  (latest : Dict.dict string float) (self : Condition.Condition) :
  fst (Condition.apply float_of_str latest self) = None ->
  Forall2 (fun old new =>
             exists n, Calc.name (snd old) = Ok n
                       /\ Dict.get n latest = Some (Calc.val (snd new)))
    (Condition.calcs self)
    (Condition.calcs (snd (Condition.apply float_of_str latest self))).
Proof.
  unfold Condition.apply. cbn [fst snd Condition.set_calcs Condition.calcs].
  apply apply_items_values.
Qed.

Lemma apply_sets_values_witness :
  Forall2 (fun old new =>
             exists n, Calc.name (snd old) = Ok n
                       /\ Dict.get n Examples.latest = Some (Calc.val (snd new)))
    (Condition.calcs Examples.cold_condition)
    (Condition.calcs
       (snd (Condition.apply Examples.decimal_literal Examples.latest
               Examples.cold_condition))).
Proof.
  apply (apply_sets_values Examples.decimal_literal Examples.latest
           Examples.cold_condition).
  vm_compute. reflexivity.
Defined.

(** X18.  [Condition.apply] stops at the first calc whose name is not a
    key of the dictionary passed: it raises [ConditionNotFoundError] for
    that name, the calcs before it keep the values just set, and that calc
    and those after it are left as they were. *)
Theorem apply_missing_name (float_of_str : string -> option float)
  (latest : Dict.dict string float) (self : Condition.Condition)
  (pre post : Dict.dict Z Calc.Calc) (i : Z) (c : Calc.Calc) (n : string) :
  Condition.calcs self = pre ++ (i, c) :: post ->
  fst (Condition.apply_items float_of_str latest pre) = None ->
  Calc.name c = Ok n ->
  Dict.get n latest = None ->
  Condition.apply float_of_str latest self
  = (Some (Condition.ConditionNotFoundError n),
     Condition.set_calcs
       (snd (Condition.apply_items float_of_str latest pre) ++ (i, c) :: post)
       self).
Proof.
  intros Hcalcs Hpre Hn Hget. unfold Condition.apply. rewrite Hcalcs.
  assert (H : Condition.apply_items float_of_str latest (pre ++ (i, c) :: post)
              = (Some (Condition.ConditionNotFoundError n),
                 snd (Condition.apply_items float_of_str latest pre)
                 ++ (i, c) :: post)).
  { clear Hcalcs. induction pre as [|[j d] pre IH];
      cbn [Condition.apply_items app].
    - pose proof (apply_calc_cases float_of_str latest c) as Hc.
      rewrite Hn, Hget in Hc. rewrite Hc. reflexivity.
    - cbn [Condition.apply_items] in Hpre.
      destruct (Condition.apply_calc float_of_str latest d) as [e|d'];
        cbn [fst snd] in *; [discriminate|].
      rewrite (IH Hpre). reflexivity. }
  rewrite H. reflexivity.
Qed.

Lemma apply_missing_name_witness :
  Condition.apply Examples.decimal_literal [("price-last", 16%float)]
    Examples.cold_condition
  = (Some (Condition.ConditionNotFoundError "dema (n=30)"),
     Condition.set_calcs
       (snd (Condition.apply_items Examples.decimal_literal
               [("price-last", 16%float)] [(1, Examples.price_last)])
        ++ (2, Examples.dema_30) :: [])
       Examples.cold_condition).
Proof.
  apply (@apply_missing_name Examples.decimal_literal [("price-last", 16%float)]
           Examples.cold_condition [(1, Examples.price_last)] []
           2 Examples.dema_30 "dema (n=30)").
  - reflexivity.
  - vm_compute. reflexivity.
  - vm_compute. reflexivity.
  - reflexivity.
Defined.

(** X19.  Once the latest values of its two calcs are set and neither is
    zero, a condition built on the calcs [1] and [2] compares the quotient
    of the second value by the first with its threshold: above it for a
    threshold with one star, equal to it for one with two, below it
    otherwise. *)
Theorem applied_condition_truth (float_of_str : string -> option float)
  (latest : Dict.dict string float) (self : Condition.Condition)
  (c1 c2 : Calc.Calc) (n1 n2 : string) (v1 v2 : float) :
  Condition.calcs self = [(1, c1); (2, c2)] ->
  Calc.name c1 = Ok n1 ->
  Calc.name c2 = Ok n2 ->
  Dict.get n1 latest = Some v1 ->
  Dict.get n2 latest = Some v2 ->
  Py.float_bool v1 = true ->
  Py.float_bool v2 = true ->
  fst (Condition.apply float_of_str latest self) = None
  /\ Condition.actual float_of_str
       (snd (Condition.apply float_of_str latest self)) = Ok (v2 / v1)%float
  /\ Condition.__bool__ float_of_str
       (snd (Condition.apply float_of_str latest self))
     = Ok (if Condition.gt self then PrimFloat.ltb (Condition.t self) (v2 / v1)
           else if Condition.eq self then PrimFloat.eqb (v2 / v1) (Condition.t self)
           else PrimFloat.ltb (v2 / v1) (Condition.t self)).
Proof.
  intros Hcalcs Hn1 Hn2 Hg1 Hg2 Hb1 Hb2.
  unfold Condition.apply. rewrite Hcalcs. cbn [Condition.apply_items].
  pose proof (apply_calc_cases float_of_str latest c1) as H1.
  rewrite Hn1, Hg1 in H1. rewrite H1.
  pose proof (apply_calc_cases float_of_str latest c2) as H2.
  rewrite Hn2, Hg2 in H2. rewrite H2.
  cbn [fst snd]. split; [reflexivity|].
  set (self' := Condition.set_calcs _ self).
  assert (Hu : Condition.unset_price_last self' = false).
  { unfold Condition.unset_price_last. subst self'.
    cbn [Condition.set_calcs Condition.calcs Dict.values map snd existsb].
    unfold Calc.__bool__. cbn [Calc.set_val Calc.val].
    rewrite Hb1, Hb2. cbn [negb]. now rewrite !andb_false_r. }
  assert (Ha : Condition.actual float_of_str self' = Ok (v2 / v1)%float).
  { unfold Condition.actual. rewrite Hu. subst self'.
    cbn [Condition.set_calcs Condition.calcs].
    unfold Dict.getitem. cbn [Dict.get key_eqb Z_key Z.eqb Pos.eqb rbind].
    unfold Calc.__truediv__, Calc.__bool__, Calc.__float__.
    cbn [Calc.set_val Calc.val]. rewrite Hb1, Hb2. cbn [andb].
    rewrite Float_of_float. cbn [rbind].
    unfold Py.float_bool in Hb1. apply negb_true_iff in Hb1.
    unfold Py.float_truediv. rewrite Hb1. cbn [rbind].
    apply Float_of_float. }
  split; [exact Ha|].
  unfold Condition.__bool__. rewrite Hu, Ha. subst self'.
  cbn [Condition.set_calcs Condition.gt Condition.eq Condition.t rbind].
  destruct (Condition.gt self); [reflexivity|].
  destruct (Condition.eq self); reflexivity.
Qed.

Lemma applied_condition_truth_witness :
  fst (Condition.apply Examples.decimal_literal Examples.latest
         Examples.cold_condition) = None
  /\ Condition.actual Examples.decimal_literal
       (snd (Condition.apply Examples.decimal_literal Examples.latest
               Examples.cold_condition)) = Ok (15 / 16)%float
  /\ Condition.__bool__ Examples.decimal_literal
       (snd (Condition.apply Examples.decimal_literal Examples.latest
               Examples.cold_condition))
     = Ok (if Condition.gt Examples.cold_condition
           then PrimFloat.ltb (Condition.t Examples.cold_condition) (15 / 16)
           else if Condition.eq Examples.cold_condition
           then PrimFloat.eqb (15 / 16) (Condition.t Examples.cold_condition)
           else PrimFloat.ltb (15 / 16) (Condition.t Examples.cold_condition)).
Proof.
  apply (@applied_condition_truth Examples.decimal_literal Examples.latest
           Examples.cold_condition Examples.price_last Examples.dema_30
           "price-last" "dema (n=30)" 16%float 15%float);
    vm_compute; reflexivity.
Defined.

(** ** The statements that read the threshold token *)

(** X29.  The statements of [Condition.__init__] that read the threshold
    token (no call reaches them), run on an object whose token lists are
    three: they store the token, set [eq] for a token ending in [**] and
    [gt] for one ending in a single [*], and set the threshold to the
    float of the token without its markers. *)
Theorem threshold_markers (float_of_str : string -> option float)
  (self : Condition.Condition) (c1 c2 : list string) (tok : string) (x : float) :
  Condition.raw self = [c1; c2; [tok]] ->
  float_of_str (if Py.endswith tok "**" then Py.drop_last 2 tok
                else if Py.endswith tok "*" then Py.drop_last 1 tok
                else tok) = Some x ->
  Condition.threshold float_of_str self
  = (Ok tt,
     Condition.set_t x
       (Condition.set_gt (Py.endswith tok "*" && negb (Py.endswith tok "**"))
          (Condition.set_eq (Py.endswith tok "**")
             (Condition.set_t_r tok self)))).
Proof.
  intros Hraw Hx.
  unfold Condition.threshold, bind, Method.self, lift, modify, ret.
  rewrite Hraw. cbn [Py.getlast rev app Py.getitem nth_error].
  cbn [Condition.t_r Condition.gt Condition.eq Condition.set_t_r
       Condition.set_eq Condition.set_gt].
  pose proof (endswith_double_star tok) as Hstar.
  unfold Number.float_.
  destruct (Py.endswith tok "**").
  - rewrite (Hstar eq_refl) in *. cbn [andb negb]. rewrite Hx. reflexivity.
  - destruct (Py.endswith tok "*"); cbn [andb negb]; rewrite Hx; reflexivity.
Qed.

Lemma threshold_markers_witness :
  Condition.threshold Examples.decimal_literal
    (Condition.fresh Examples.cold_raw "buy")
  = (Ok tt,
     Condition.set_t 0.98
       (Condition.set_gt (Py.endswith "0.98*" "*" && negb (Py.endswith "0.98*" "**"))
          (Condition.set_eq (Py.endswith "0.98*" "**")
             (Condition.set_t_r "0.98*" (Condition.fresh Examples.cold_raw "buy"))))).
Proof.
  apply (@threshold_markers Examples.decimal_literal
           (Condition.fresh Examples.cold_raw "buy")
           ["price-last"] ["dema"; "30"] "0.98*" 0.98%float).
  - reflexivity.
  - vm_compute. reflexivity.
Defined.

(** ** The conditions of an outcome *)

Section DictOrder.
Context {K V : Type} `{Key K}.
Implicit Types (d : Dict.dict K V) (k : K) (v : V).

Lemma In_setitem k v d (p : K * V) :
  In p (Dict.setitem k v d) -> p = (k, v) \/ In p d.
Proof.
  induction d as [|[k0 v0] d IH]; cbn.
  - intros [<-|[]]. now left.
  - destruct (key_eqb k0 k); cbn.
    + intros [<-|Hp]; auto.
    + intros [<-|Hp]; auto. destruct (IH Hp); auto.
Qed.

Lemma keys_filter (f : K * V -> bool) k d :
  existsb (key_eqb k) (Dict.keys d) = false ->
  existsb (key_eqb k) (Dict.keys (filter f d)) = false.
Proof.
  unfold Dict.keys.
  induction d as [|[k0 v0] d IH]; cbn [filter map fst existsb]; [reflexivity|].
  intros Hk. apply orb_false_iff in Hk. destruct Hk as [Hk0 Hd].
  destruct (f (k0, v0)); cbn [map fst existsb]; [|auto].
  rewrite Hk0. cbn [orb]. auto.
Qed.

Lemma unique_filter (f : K * V -> bool) d :
  Dict.unique d = true -> Dict.unique (filter f d) = true.
Proof.
  induction d as [|[k0 v0] d IH]; cbn [filter Dict.unique]; [reflexivity|].
  intros Hu. apply andb_true_iff in Hu. destruct Hu as [Hk Hd].
  destruct (f (k0, v0)); cbn [Dict.unique]; [|auto].
  apply andb_true_iff. split; [|auto].
  apply negb_true_iff. apply (keys_filter f). now apply negb_true_iff.
Qed.

End DictOrder.

(** X20.  An outcome is built only without conditions: [Outcome] on an
    empty list returns the outcome with no conditions, and on any other
    list it raises, since the first [Condition] it builds does. *)
Theorem Outcome_init_without_conditions (float_of_str : string -> option float)
  (dir_object : list string) (nm mode : string) :
  Outcome.__init__ float_of_str dir_object nm [] mode
  = Ok {| Outcome.nm := nm; Outcome._cds := []; Outcome.mode := mode;
          Outcome.cds := [] |}
  /\ (forall r rs, exists e,
        Outcome.__init__ float_of_str dir_object nm (r :: rs) mode = Raise e).
Proof.
  split; [reflexivity|].
  intros r rs. unfold Outcome.__init__. cbn [Outcome.init_cds].
  unfold Condition.new.
  destruct (Condition_init_never_returns float_of_str dir_object
              (Condition.fresh r mode)) as [e ->].
  cbn [rbind]. eauto.
Qed.

(** X21.  An outcome is true exactly when each of its conditions is true
    (so an outcome without conditions is true): a false condition, or one
    whose truth value raises, keeps it from being true. *)
Theorem Outcome_bool_all (float_of_str : string -> option float)
  (o : Outcome.Outcome) :
  Outcome.__bool__ float_of_str o = Ok true
  <-> Forall (fun c => Condition.__bool__ float_of_str c = Ok true)
        (Dict.values (Outcome.cds o)).
Proof.
  unfold Outcome.__bool__.
  induction (Dict.values (Outcome.cds o)) as [|c cs IH]; cbn [Outcome.all].
  - split; [constructor|reflexivity].
  - destruct (Condition.__bool__ float_of_str c) as [[|]|e] eqn:Hc; cbn [rbind].
    + rewrite IH. split; [now constructor|now inversion 1].
    + split; [discriminate|]. inversion 1; congruence.
    + split; [discriminate|]. inversion 1; congruence.
Qed.

(** X22.  The truth value of an outcome stops at its first false
    condition: when the conditions before it are true, the outcome is
    false and the conditions after it are not evaluated, so that none of
    them can raise. *)
Theorem Outcome_bool_first_false (float_of_str : string -> option float)
  (o : Outcome.Outcome) (pre post : list Condition.Condition)
  (c : Condition.Condition) :
  Dict.values (Outcome.cds o) = pre ++ c :: post ->
  Forall (fun c' => Condition.__bool__ float_of_str c' = Ok true) pre ->
  Condition.__bool__ float_of_str c = Ok false ->
  Outcome.__bool__ float_of_str o = Ok false.
Proof.
  intros Hv Hpre Hc. unfold Outcome.__bool__. rewrite Hv. clear Hv.
  induction Hpre as [|c' pre Hc' _ IH]; cbn [app Outcome.all].
  - now rewrite Hc.
  - now rewrite Hc'.
Qed.

Lemma Outcome_bool_first_false_witness :
  Outcome.__bool__ Examples.decimal_literal Examples.mixed_outcome = Ok false.
Proof.
  apply (@Outcome_bool_first_false Examples.decimal_literal
           Examples.mixed_outcome [Examples.cold_condition]
           [Examples.broken_condition] Examples.low_condition).
  - reflexivity.
  - constructor; [vm_compute; reflexivity|constructor].
  - vm_compute. reflexivity.
Defined.

Lemma by_name_keyed (cs : list Calc.Calc)
  (acc d : Dict.dict string Calc.Calc) :
  Dict.unique acc = true ->
  (forall n c, In (n, c) acc -> Calc.name c = Ok n) ->
  Outcome.by_name cs acc = Ok d ->
  Dict.unique d = true
  /\ (forall n c, In (n, c) d -> Calc.name c = Ok n)
  /\ (forall c, In c cs -> exists n, Calc.name c = Ok n /\ In n (Dict.keys d)).
Proof.
  revert acc. induction cs as [|c cs IH]; intros acc Hu Hacc;
    cbn [Outcome.by_name].
  - intros [= <-]. split; [exact Hu|]. split; [exact Hacc|]. intros c [].
  - destruct (Calc.name c) as [n|e] eqn:Hn; cbn [rbind]; [|discriminate].
    intros Hd. pose proof Hd as Hd'. apply IH in Hd.
    + destruct Hd as (Hud & Hkd & Hin). split; [exact Hud|].
      split; [exact Hkd|].
      intros c' [<-|Hc']; [|exact (Hin c' Hc')].
      exists n. split; [exact Hn|].
      clear - Hd'. revert Hd'.
      assert (Hget : Dict.get n (Dict.setitem n c acc) <> None)
        by (rewrite get_setitem_same; discriminate).
      revert Hget. generalize (Dict.setitem n c acc). clear.
      induction cs as [|c' cs IH]; intros acc Hget; cbn [Outcome.by_name].
      * intros [= ->]. destruct (Dict.get n d) as [v|] eqn:Hg; [|congruence].
        exact (get_Some_key _ _ Hg).
      * destruct (Calc.name c') as [n'|e]; cbn [rbind]; [|discriminate].
        apply IH. destruct (String.eqb_spec n' n) as [->|Hne].
        -- rewrite get_setitem_same. discriminate.
        -- rewrite (@get_setitem_other _ _ _ n' n c' acc Hne). exact Hget.
    + now apply unique_setitem.
    + intros n' c' Hin. apply In_setitem in Hin.
      destruct Hin as [[= -> ->]|Hin]; [exact Hn|exact (Hacc _ _ Hin)].
Qed.

(** X23.  The dictionary [Outcome.calcs] returns is keyed by name: no name
    occurs twice, every calc is stored under its own name, with [ma] every
    calc stored is a moving average, and with [other] alone none is;
    without either, the name of every calc of every condition is a key. *)
Theorem Outcome_calcs_by_name (ma other : bool) (o : Outcome.Outcome)
  (d : Dict.dict string Calc.Calc) :
  Outcome.calcs ma other o = Ok d ->
  Dict.unique d = true
  /\ (forall n c, In (n, c) d ->
        Calc.name c = Ok n
        /\ (ma = true -> Calc.is_ma c = true)
        /\ (ma = false -> other = true -> Calc.is_ma c = false))
  /\ (ma = false -> other = false ->
      forall cd c, In cd (Dict.values (Outcome.cds o)) ->
                   In c (Dict.values (Condition.calcs cd)) ->
                   exists n, Calc.name c = Ok n /\ In n (Dict.keys d)).
Proof.
  unfold Outcome.calcs.
  destruct (Outcome.by_name _ []) as [total|e] eqn:Ht; cbn [rbind];
    [|discriminate].
  apply by_name_keyed in Ht; [|reflexivity|intros n c []].
  destruct Ht as (Hu & Hk & Hin).
  destruct ma; [|destruct other]; intros [= <-].
  - split; [now apply unique_filter|]. split; [|discriminate].
    intros n c Hf. apply filter_In in Hf. destruct Hf as [Hf Hma].
    split; [exact (Hk _ _ Hf)|]. split; [intros _; exact Hma|discriminate].
  - split; [now apply unique_filter|]. split; [|discriminate].
    intros n c Hf. apply filter_In in Hf. destruct Hf as [Hf Hma].
    split; [exact (Hk _ _ Hf)|]. split; [discriminate|].
    intros _ _. now apply negb_true_iff in Hma.
  - split; [exact Hu|]. split.
    + intros n c Hf. split; [exact (Hk _ _ Hf)|]. split; discriminate.
    + intros _ _ cd c Hcd Hc. apply Hin. apply in_flat_map.
      exists cd. split; assumption.
Qed.

Lemma Outcome_calcs_by_name_witness :
  Dict.unique [("dema (n=30)", Examples.dema_30)] = true
  /\ (forall n c, In (n, c) [("dema (n=30)", Examples.dema_30)] ->
        Calc.name c = Ok n
        /\ (true = true -> Calc.is_ma c = true)
        /\ (true = false -> false = true -> Calc.is_ma c = false))
  /\ (true = false -> false = false ->
      forall cd c, In cd (Dict.values (Outcome.cds Examples.cold_outcome)) ->
                   In c (Dict.values (Condition.calcs cd)) ->
                   exists n, Calc.name c = Ok n
                             /\ In n (Dict.keys [("dema (n=30)", Examples.dema_30)])).
Proof.
  apply (@Outcome_calcs_by_name true false Examples.cold_outcome
           [("dema (n=30)", Examples.dema_30)]).
  vm_compute. reflexivity.
Defined.

Lemma Outcome_apply_items_cases (float_of_str : string -> option float)
  (latest : Dict.dict string float)
  (items : Dict.dict Z Condition.Condition) :
  (fst (Outcome.apply_items float_of_str latest items) = None ->
   Forall2 (fun old new =>
              fst new = fst old
              /\ Forall2 (fun c c' =>
                            exists n, Calc.name (snd c) = Ok n
                                      /\ Dict.get n latest = Some (Calc.val (snd c')))
                   (Condition.calcs (snd old)) (Condition.calcs (snd new)))
     items (snd (Outcome.apply_items float_of_str latest items)))
  /\ (forall e, fst (Outcome.apply_items float_of_str latest items) = Some e ->
       exists pre i r post,
         items = pre ++ (i, r) :: post
         /\ fst (Outcome.apply_items float_of_str latest pre) = None
         /\ fst (Condition.apply float_of_str latest r) = Some e
         /\ snd (Outcome.apply_items float_of_str latest items)
            = snd (Outcome.apply_items float_of_str latest pre)
              ++ (i, snd (Condition.apply float_of_str latest r)) :: post).
Proof.
  induction items as [|[i r] rest [IHok IHerr]]; cbn [Outcome.apply_items].
  - split; [constructor|discriminate].
  - destruct (Condition.apply float_of_str latest r) as [[e|] r'] eqn:Hr;
      cbn [fst snd].
    + split; [discriminate|].
      intros e' [= <-]. exists [], i, r, rest. rewrite Hr.
      repeat split.
    + split.
      * intros Hrest. constructor; [|exact (IHok Hrest)].
        split; [reflexivity|]. cbn [snd].
        replace r' with (snd (Condition.apply float_of_str latest r))
          by now rewrite Hr.
        unfold Condition.apply.
        cbn [fst snd Condition.set_calcs Condition.calcs].
        apply apply_items_values.
        unfold Condition.apply in Hr. now injection Hr as ->.
      * intros e He.
        destruct (IHerr e He) as (pre & j & q & post & -> & Hp & Hq & Hs).
        exists ((i, r) :: pre), j, q, post.
        split; [reflexivity|]. cbn [Outcome.apply_items]. rewrite Hr.
        cbn [fst snd app]. split; [exact Hp|]. split; [exact Hq|].
        now rewrite Hs.
Qed.

(** X24.  When [Outcome.apply] returns, the conditions keep their numbers
    and every calc of every condition has the value the dictionary passed
    stores under its name. *)
Theorem Outcome_apply_sets_values (float_of_str : string -> option float)
  (latest : Dict.dict string float) (o : Outcome.Outcome) :
  fst (Outcome.apply float_of_str latest o) = None ->
  Forall2 (fun old new =>
             fst new = fst old
             /\ Forall2 (fun c c' =>
                           exists n, Calc.name (snd c) = Ok n
                                     /\ Dict.get n latest = Some (Calc.val (snd c')))
                  (Condition.calcs (snd old)) (Condition.calcs (snd new)))
    (Outcome.cds o) (Outcome.cds (snd (Outcome.apply float_of_str latest o))).
Proof.
  unfold Outcome.apply. cbn [fst snd Outcome.set_cds Outcome.cds].
  apply Outcome_apply_items_cases.
Qed.

Lemma Outcome_apply_sets_values_witness :
  Forall2 (fun old new =>
             fst new = fst old
             /\ Forall2 (fun c c' =>
                           exists n, Calc.name (snd c) = Ok n
                                     /\ Dict.get n Examples.latest
                                        = Some (Calc.val (snd c')))
                  (Condition.calcs (snd old)) (Condition.calcs (snd new)))
    (Outcome.cds Examples.cold_outcome)
    (Outcome.cds (snd (Outcome.apply Examples.decimal_literal Examples.latest
                         Examples.cold_outcome))).
Proof.
  apply (Outcome_apply_sets_values Examples.decimal_literal
           Examples.latest Examples.cold_outcome).
  vm_compute. reflexivity.
Defined.

(** X25.  When [Outcome.apply] raises, the error is the one of the first
    condition whose [apply] raises: the conditions before it have their
    values set, that condition is left as its own [apply] left it, and the
    conditions after it are untouched. *)
Theorem Outcome_apply_stops_at_first_error (float_of_str : string -> option float)
  (latest : Dict.dict string float) (o : Outcome.Outcome)
  (e : Condition.apply_error) :
  fst (Outcome.apply float_of_str latest o) = Some e ->
  exists pre i r post,
    Outcome.cds o = pre ++ (i, r) :: post
    /\ fst (Outcome.apply_items float_of_str latest pre) = None
    /\ fst (Condition.apply float_of_str latest r) = Some e
    /\ Outcome.cds (snd (Outcome.apply float_of_str latest o))
       = snd (Outcome.apply_items float_of_str latest pre)
         ++ (i, snd (Condition.apply float_of_str latest r)) :: post.
Proof.
  unfold Outcome.apply. cbn [fst snd Outcome.set_cds Outcome.cds].
  apply Outcome_apply_items_cases.
Qed.

Lemma Outcome_apply_stops_at_first_error_witness :
  exists pre i r post,
    Outcome.cds Examples.mixed_outcome = pre ++ (i, r) :: post
    /\ fst (Outcome.apply_items Examples.decimal_literal
              [("dema (n=30)", 15%float)] pre) = None
    /\ fst (Condition.apply Examples.decimal_literal
              [("dema (n=30)", 15%float)] r)
       = Some (Condition.ConditionNotFoundError "price-last")
    /\ Outcome.cds (snd (Outcome.apply Examples.decimal_literal
                           [("dema (n=30)", 15%float)] Examples.mixed_outcome))
       = snd (Outcome.apply_items Examples.decimal_literal
                [("dema (n=30)", 15%float)] pre)
         ++ (i, snd (Condition.apply Examples.decimal_literal
                       [("dema (n=30)", 15%float)] r)) :: post.
Proof.
  apply (@Outcome_apply_stops_at_first_error Examples.decimal_literal
           [("dema (n=30)", 15%float)] Examples.mixed_outcome
           (Condition.ConditionNotFoundError "price-last")).
  vm_compute. reflexivity.
Defined.

(** ** The current price and the trailing extrema *)

(** X26.  [price(n)] stores the newest value of a one-column frame under
    the name [price], whatever the column is called and however many rows
    [n >= 1] asks for; it returns at most [n] rows (one by default) and
    leaves the frame and the buffers as they are. *)
Theorem price_caches_newest_value (n : option Z) (s : CoinFrame.CoinFrame)
  (c : string) (P : list float) :
  Pandas.data (CoinFrame._obj s) = [(c, P)] ->
  List.length P = List.length (Pandas.index (CoinFrame._obj s)) ->
  P <> [] ->
  1 <= CoinFrame.or_1 n ->
  exists df,
    CoinFrame.price n s
    = (Ok df,
       CoinFrame.set_calcs
         (Dict.setitem "price" (Pandas.nth_value P (List.length P - 1))
            (CoinFrame.calcs s)) s)
    /\ (List.length (Pandas.index df) <= Z.to_nat (CoinFrame.or_1 n))%nat.
Proof.
  intros Hdata Hlen Hne Hn.
  unfold CoinFrame.price, bind, self, lift.
  set (m := CoinFrame.or_1 n) in *.
  unfold Pandas.set_columns, Pandas.tail. cbn [Pandas.data Pandas.index].
  rewrite Hdata. cbn [map List.length Nat.eqb fst snd combine].
  destruct (Z.ltb_spec m 0) as [Hneg|_]; [lia|].
  set (len := List.length (Pandas.index (CoinFrame._obj s))) in *.
  assert (Hpos : (1 <= len)%nat).
  { rewrite <- Hlen. destruct P; [congruence|cbn; lia]. }
  set (k := (len - Z.to_nat m)%nat).
  assert (Hk : (k < len)%nat) by (subst k; lia).
  unfold CoinFrame.cache, bind, lift, modify, ret, Pandas.tail1_records.
  cbn [Pandas.index Pandas.data].
  assert (Hsk : List.length (skipn k (Pandas.index (CoinFrame._obj s)))
                = (len - k)%nat) by (now rewrite length_skipn).
  destruct (skipn k (Pandas.index (CoinFrame._obj s))) as [|t ts] eqn:Hidx;
    [cbn in Hsk; lia|].
  rewrite <- Hidx in Hsk |- *. cbn [map fst snd Py.getitem nth_error].
  eexists. split.
  - f_equal. f_equal. cbn [CoinFrame.cache_items]. f_equal.
    unfold Pandas.nth_value. rewrite nth_skipn, Hsk. f_equal. lia.
  - unfold Pandas.dropna. cbn [Pandas.index].
    rewrite select_is_select_from.
    etransitivity; [apply select_from_length|]. rewrite Hsk. subst k. lia.
Qed.

Lemma price_caches_newest_value_witness :
  exists df,
    CoinFrame.price None Examples.frame
    = (Ok df,
       CoinFrame.set_calcs
         (Dict.setitem "price"
            (Pandas.nth_value [10; 12; 14; 16]%float
               (List.length [10; 12; 14; 16]%float - 1))
            (CoinFrame.calcs Examples.frame)) Examples.frame)
    /\ (List.length (Pandas.index df) <= Z.to_nat (CoinFrame.or_1 None))%nat.
Proof.
  apply (@price_caches_newest_value None Examples.frame "price"
           [10; 12; 14; 16]%float).
  - reflexivity.
  - reflexivity.
  - discriminate.
  - vm_compute. discriminate.
Defined.

(** X27.  A negative window separates [max] from [min]: [max(n)] passes it
    to [rolling], which refuses it with a [ValueError], and nothing is
    stored; [min(n)] falls back to the running minimum of the whole frame
    and stores its newest value under a name that carries the negative
    number. *)
Theorem negative_window_max_min (n : Z) (s : CoinFrame.CoinFrame)
  (P : list float) :
  n < 0 ->
  Pandas.data (CoinFrame._obj s) = [("price", P)] ->
  Pandas.index (CoinFrame._obj s) <> [] ->
  CoinFrame.max (Some n) s = (Raise ValueError, s)
  /\ exists df,
       CoinFrame.min (Some n) s
       = (Ok df,
          CoinFrame.set_calcs
            (Dict.setitem ("min (n=" ++ Py.str_of_int n ++ ")")%string
               (Pandas.nth_value (Pandas.cum Pandas.fmin None P)
                  (List.length (Pandas.index (CoinFrame._obj s)) - 1))
               (CoinFrame.calcs s)) s).
Proof.
  intros Hn Hdata Hidx.
  assert (Hz : (n =? 0) = false) by (apply Z.eqb_neq; lia).
  split.
  - unfold CoinFrame.max, bind, self, lift, Pandas.rolling.
    rewrite Hz. cbn [negb].
    destruct (Z.ltb_spec n 0) as [_|Hge]; [reflexivity|lia].
  - unfold CoinFrame.min, bind, self, lift.
    destruct (Z.gtb_spec n 0) as [Hgt|_]; [lia|].
    rewrite Hz. unfold Pandas.columns. rewrite Hdata.
    cbn [Dict.keys map fst Py.getitem nth_error].
    unfold CoinFrame.cache, bind, lift, modify, ret, Pandas.tail1_records.
    unfold Pandas.rename, Pandas.cummin, Pandas.map_columns.
    cbn [Pandas.index Pandas.data]. rewrite Hdata.
    destruct (Pandas.index (CoinFrame._obj s)) as [|t ts] eqn:Hi; [congruence|].
    cbn [map fst snd Py.getitem nth_error String.eqb Ascii.eqb Bool.eqb].
    eexists. reflexivity.
Qed.

Lemma negative_window_max_min_witness :
  CoinFrame.max (Some (-1)) Examples.frame = (Raise ValueError, Examples.frame)
  /\ exists df,
       CoinFrame.min (Some (-1)) Examples.frame
       = (Ok df,
          CoinFrame.set_calcs
            (Dict.setitem ("min (n=" ++ Py.str_of_int (-1) ++ ")")%string
               (Pandas.nth_value
                  (Pandas.cum Pandas.fmin None [10; 12; 14; 16]%float)
                  (List.length (Pandas.index (CoinFrame._obj Examples.frame)) - 1))
               (CoinFrame.calcs Examples.frame)) Examples.frame).
Proof.
  apply (@negative_window_max_min (-1) Examples.frame [10; 12; 14; 16]%float).
  - reflexivity.
  - reflexivity.
  - discriminate.
Defined.

(** X28.  Every calculation that ends in [cache] fails on a frame without
    rows: [cache] raises [IndexError] there and leaves the object as it
    was, and so do [price] on a frame of one column and [min] on the
    historical window. *)
Theorem cache_on_empty_frame (df : Pandas.DataFrame) (s : CoinFrame.CoinFrame)
  (n : option Z) (c : string) :
  Pandas.index df = [] ->
  Pandas.index (CoinFrame._obj s) = [] ->
  Pandas.data (CoinFrame._obj s) = [(c, [])] ->
  CoinFrame.cache df s = (Raise IndexError, s)
  /\ CoinFrame.price n s = (Raise IndexError, s)
  /\ CoinFrame.min (Some 0) s = (Raise IndexError, s)
  /\ CoinFrame.max (Some 0) s = (Raise IndexError, s).
Proof.
  intros Hdf Hidx Hdata.
  assert (Hcache : forall df', Pandas.index df' = [] ->
                               CoinFrame.cache df' s = (Raise IndexError, s)).
  { intros df' H.
    unfold CoinFrame.cache, bind, lift, modify, ret, Pandas.tail1_records.
    now rewrite H. }
  split; [now apply Hcache|]. split; [|split].
  - unfold CoinFrame.price, bind, self, lift, Pandas.set_columns, Pandas.tail.
    cbn [Pandas.data Pandas.index]. rewrite Hdata, Hidx.
    cbn [map List.length Nat.eqb].
    apply Hcache. cbn [Pandas.index]. now rewrite skipn_nil.
  - unfold CoinFrame.min, bind, self, lift, Pandas.columns.
    cbn [Z.gtb Z.compare Z.eqb]. rewrite Hdata.
    cbn [Dict.keys map fst Py.getitem nth_error].
    apply Hcache. unfold Pandas.rename, Pandas.cummin, Pandas.map_columns.
    cbn [Pandas.index]. exact Hidx.
  - unfold CoinFrame.max, bind, self, lift, Pandas.columns.
    cbn [Z.eqb negb]. rewrite Hdata.
    cbn [Dict.keys map fst Py.getitem nth_error].
    apply Hcache. unfold Pandas.rename, Pandas.cummax, Pandas.map_columns.
    cbn [Pandas.index]. exact Hidx.
Qed.

Lemma cache_on_empty_frame_witness :
  CoinFrame.cache (CoinFrame._obj Examples.no_rows) Examples.no_rows
  = (Raise IndexError, Examples.no_rows)
  /\ CoinFrame.price None Examples.no_rows = (Raise IndexError, Examples.no_rows)
  /\ CoinFrame.min (Some 0) Examples.no_rows = (Raise IndexError, Examples.no_rows)
  /\ CoinFrame.max (Some 0) Examples.no_rows = (Raise IndexError, Examples.no_rows).
Proof.
  apply (@cache_on_empty_frame (CoinFrame._obj Examples.no_rows)
           Examples.no_rows None "price");
    reflexivity.
Defined.
